(** * Forecast presentation client: windowing, chart composition, requests

    A shallow embedding of the dashboard client's forecast path
    ([renderForecastChart], [handlePeriodChange], [renderTileForecastChart],
    [getModelParams], [runTileAnalysis], [renderCalendar],
    [loadPrecomputedModel]) together with the properties the specification
    states about windowing ([WindowResolver]) and composition
    ([ChartComposer]).

    Conventions.
    - A JavaScript array is a [list]; [.length] is an integer in [Z] because
      the source subtracts from it and the difference may be negative.
    - Dates are the ISO strings of the JSON payload.  Observation values are
      JavaScript numbers on which the client performs no arithmetic; they are
      kept abstract (type [V]).
    - A thrown exception is a value of [exc]; code that mutates an object
      before it throws returns the mutated object next to the outcome. *)

From Stdlib Require Import Ascii.
From stdpp Require Import base option list strings gmap pretty.

Local Open Scope Z_scope.

(** ** Exceptions *)

Inductive js_error := RangeError | TypeError | SyntaxError.

Inductive exc (A : Type) :=
  | Ok (a : A)
  | Throw (e : js_error).
Arguments Ok {A} a.
Arguments Throw {A} e.

#[global] Instance exc_ret : MRet exc := @Ok.
#[global] Instance exc_bind : MBind exc :=
  λ A B f m, match m with Ok a => f a | Throw e => Throw e end.

Definition is_ok {A} (m : exc A) : bool :=
  match m with Ok _ => true | Throw _ => false end.

(** ** Arrays *)

Section Arrays.
Context {A : Type}.

(** [a.length] *)
Definition js_length (a : list A) : Z := Z.of_nat (length a).

(** [a.slice(start)]: a negative [start] counts from the end, and the
    resulting position is clamped to [0 .. a.length]. *)
Definition js_slice (start : Z) (a : list A) : list A :=
  let len := js_length a in
  let k := if start <? 0 then Z.max (len + start) 0 else Z.min start len in
  drop (Z.to_nat k) a.

(** [Array(n).fill(x)]: [Array(n)] throws a RangeError on a negative
    length.  (The upper limit 2^32 - 1 is not modelled: every argument in
    this program is the length of an existing array, or one less.) *)
Definition js_Array_fill (n : Z) (x : A) : exc (list A) :=
  if n <? 0 then Throw RangeError else Ok (replicate (Z.to_nat n) x).
End Arrays.

(** ** Data model *)

Section Model.
Context {V : Type}.

(** One entry of a Chart.js data array. *)
Inductive cell :=
  | Null                (* the absence marker *)
  | Undefined           (* an out-of-range read *)
  | Num (v : V).

(** [a[i]] on an array of numbers *)
Definition js_index (a : list V) (i : Z) : cell :=
  if i <? 0 then Undefined
  else match a !! Z.to_nat i with
       | Some v => Num v
       | None => Undefined
       end.

Record Historical := {
  dates : list string;
  values : list V
}.

Record Forecast := {
  forecast_dates : list string;
  forecast_values : list V;
  sigma_1_up : list V;
  sigma_1_down : list V;
  sigma_2_up : list V;
  sigma_2_down : list V
}.

Record Comparison := {
  comparison_dates : list string;
  actual_diff : list V;
  predict_diff : list V
}.

(** The analysis payload ([data], [result], [analysisData]); [stats] is
    only formatted for display and is not part of the model. *)
Record Result := {
  historical : Historical;
  forecast : Forecast;
  comparison : option Comparison;
  opinion : option string
}.

(** Array lengths agree the way the data model requires. *)
Definition aligned_historical (h : Historical) : Prop :=
  length (values h) = length (dates h).

Definition aligned_forecast (f : Forecast) : Prop :=
  length (forecast_values f) = length (forecast_dates f)
  ∧ length (sigma_1_up f) = length (forecast_dates f)
  ∧ length (sigma_1_down f) = length (forecast_dates f)
  ∧ length (sigma_2_up f) = length (forecast_dates f)
  ∧ length (sigma_2_down f) = length (forecast_dates f).

(** ** Windowing *)

(** [renderTileForecastChart], the slicing block: the local [historical]
    is re-bound to a sliced copy when [periodValue > 0]. *)
Definition tile_window (h : Historical) (periodValue : Z) : Historical :=
  if 0 <? periodValue then
    let histStart := Z.max 0 (js_length (dates h) - periodValue) in
    {| dates := js_slice histStart (dates h);
       values := js_slice histStart (values h) |}
  else h.

(** [handlePeriodChange], the same block: [histStart] starts at 0 and both
    arrays are always sliced. *)
Definition panel_window (h : Historical) (periodValue : Z) : Historical :=
  let histStart :=
    if 0 <? periodValue then Z.max 0 (js_length (dates h) - periodValue)
    else 0 in
  {| dates := js_slice histStart (dates h);
     values := js_slice histStart (values h) |}.

(** The window resolver on a whole payload: only [historical] is replaced. *)
Definition resolve (data : Result) (periodValue : Z) : Result :=
  {| historical := tile_window (historical data) periodValue;
     forecast := forecast data;
     comparison := comparison data;
     opinion := opinion data |}.

(** ** Composition *)

(** The three lines shared by [renderForecastChart], [handlePeriodChange]
    and [renderTileForecastChart]:
    [allDates], [historicalValues], [forecastValues]. *)
Record Timeline := {
  allDates : list string;
  historicalValues : list cell;
  forecastValues : list cell
}.

Definition compose_timeline (h : Historical) (f : Forecast) : exc Timeline :=
  let allDates := dates h ++ forecast_dates f in
  padF ← js_Array_fill (js_length (forecast_dates f)) Null;
  let historicalValues := (Num <$> values h) ++ padF in
  padH ← js_Array_fill (js_length (dates h) - 1) Null;
  let forecastValues :=
    padH ++ [js_index (values h) (js_length (values h) - 1)]
         ++ (Num <$> forecast_values f) in
  mret {| allDates := allDates;
          historicalValues := historicalValues;
          forecastValues := forecastValues |}.

(** [[...Array(historical.dates.length).fill(null), ...sigma]] *)
Definition band_series (h : Historical) (sigma : list V) : exc (list cell) :=
  pad ← js_Array_fill (js_length (dates h)) Null;
  mret (pad ++ (Num <$> sigma)).

(** A Chart.js dataset: its label, its data array and its [fill] option
    ([None] for [false] or absent, [Some k] for a relative target). *)
Record Dataset := {
  label : string;
  data : list cell;
  fill : option Z
}.

Record Chart := {
  labels : list string;
  datasets : list Dataset
}.

(** The chart built by [renderForecastChart]: six datasets. *)
Definition panel_chart (h : Historical) (f : Forecast) : exc Chart :=
  t ← compose_timeline h f;
  s2u ← band_series h (sigma_2_up f);
  s1u ← band_series h (sigma_1_up f);
  s1d ← band_series h (sigma_1_down f);
  s2d ← band_series h (sigma_2_down f);
  mret {| labels := allDates t;
          datasets :=
            [ {| label := "Historical"; data := historicalValues t; fill := None |};
              {| label := "Forecast"; data := forecastValues t; fill := None |};
              {| label := "+2σ RMSE"; data := s2u; fill := None |};
              {| label := "+1σ RMSE"; data := s1u; fill := Some 1 |};
              {| label := "-1σ RMSE"; data := s1d; fill := Some (-1) |};
              {| label := "-2σ RMSE"; data := s2d; fill := None |} ] |}.

(** The chart built by [renderTileForecastChart]: four datasets. *)
Definition tile_chart (h : Historical) (f : Forecast) : exc Chart :=
  t ← compose_timeline h f;
  s1u ← band_series h (sigma_1_up f);
  s1d ← band_series h (sigma_1_down f);
  mret {| labels := allDates t;
          datasets :=
            [ {| label := "Historical"; data := historicalValues t; fill := None |};
              {| label := "Forecast"; data := forecastValues t; fill := None |};
              {| label := "+1σ RMSE"; data := s1u; fill := Some 1 |};
              {| label := "-1σ RMSE"; data := s1d; fill := None |} ] |}.

(** ** Tile state *)

(** The tile's [<canvas class="forecast-chart">]: the expando
    [canvas._fullData] and the live chart [Chart.getChart(canvas)]. *)
Record Canvas := {
  _fullData : option Result;
  canvas_chart : option Chart
}.

Definition new_canvas : Canvas :=
  {| _fullData := None; canvas_chart := None |}.

(** What [.tile-chart-container] currently holds. *)
Inductive ChartContainer :=
  | Spinner
  | Placeholder (text : string)
  | ForecastCanvas (cv : Canvas).

(** The [onclick] bound to a tile's period buttons. *)
Inductive PeriodHandler :=
  | FromCanvas                          (* bound by [loadPrecomputedModel] *)
  | FromAnalysis (analysisData : Result). (* bound by [runTileAnalysis] *)

(** A [.tile-content] element.  [chartContainer = None] is a tile without
    a chart container (stock and economic tiles). *)
Record Content := {
  chartContainer : option ChartContainer;
  period_onclick : option PeriodHandler;
  diff_chart : option Comparison
}.

Definition set_container (content : Content) (k : ChartContainer) : Content :=
  {| chartContainer := Some k;
     period_onclick := period_onclick content;
     diff_chart := diff_chart content |}.

(** [content.querySelector('.forecast-chart')] *)
Definition forecast_canvas (content : Content) : option Canvas :=
  match chartContainer content with
  | Some (ForecastCanvas cv) => Some cv
  | _ => None
  end.

(** [renderTileForecastChart(content, data, periodValue)].  The canvas
    keeps the full [data]; the existing chart is destroyed before the new
    arrays are built, so a throw leaves the canvas without a chart. *)
Definition renderTileForecastChart
    (content : Content) (data : Result) (periodValue : Z)
  : Content * exc unit :=
  match forecast_canvas content with
  | None => (content, Ok ())
  | Some _ =>
      let historical := tile_window (historical data) periodValue in
      match tile_chart historical (forecast data) with
      | Ok ch =>
          (set_container content
             (ForecastCanvas {| _fullData := Some data; canvas_chart := Some ch |}),
           Ok ())
      | Throw e =>
          (set_container content
             (ForecastCanvas {| _fullData := Some data; canvas_chart := None |}),
           Throw e)
      end
  end.

(** A click on a tile's period button; [period] is
    [parseInt(btn.dataset.period)] (a NaN takes the branch of 0). *)
Definition tile_period_click (content : Content) (period : Z)
  : Content * exc unit :=
  match period_onclick content with
  | None => (content, Ok ())
  | Some (FromAnalysis analysisData) =>
      renderTileForecastChart content analysisData period
  | Some FromCanvas =>
      match forecast_canvas content with
      | Some cv =>
          match _fullData cv with
          | Some full => renderTileForecastChart content full period
          | None => (content, Ok ())
          end
      | None => (content, Ok ())
      end
  end.

(** [renderTileDiffChart] *)
Definition renderTileDiffChart (content : Content) (data : Result) : Content :=
  {| chartContainer := chartContainer content;
     period_onclick := period_onclick content;
     diff_chart := comparison data |}.

(** ** Application state *)

(** [state.charts.forecast]: the chart object stays referenced after
    [destroy()]. *)
Record ChartObj := {
  chart : Chart;
  destroyed : bool
}.

Record AppState := {
  analysisResults : option Result;
  fullChartData : option (Historical * Forecast);
  charts_forecast : option ChartObj;
  tiles : gmap nat Content
}.

(** [renderForecastChart(data)] *)
Definition renderForecastChart (data : Result) (st : AppState)
  : AppState * exc unit :=
  let old :=
    match charts_forecast st with
    | Some o => Some {| chart := chart o; destroyed := true |}
    | None => None
    end in
  let full := (historical data, forecast data) in
  match panel_chart (historical data) (forecast data) with
  | Ok ch =>
      ({| analysisResults := analysisResults st;
          fullChartData := Some full;
          charts_forecast := Some {| chart := ch; destroyed := false |};
          tiles := tiles st |},
       Ok ())
  | Throw e =>
      ({| analysisResults := analysisResults st;
          fullChartData := Some full;
          charts_forecast := old;
          tiles := tiles st |},
       Throw e)
  end.

(** [runAnalysis], from the arrival of the response: the result is stored
    and rendered; the surrounding [catch] reports a throw in an alert. *)
Definition runAnalysis_render (analysisData : Result) (st : AppState)
  : AppState :=
  fst (renderForecastChart analysisData
         {| analysisResults := Some analysisData;
            fullChartData := fullChartData st;
            charts_forecast := charts_forecast st;
            tiles := tiles st |}).

(** [chartToUpdate.data.datasets[k].data = rhs], in sequence; a missing
    dataset is a TypeError that leaves the earlier assignments in place. *)
Fixpoint assign_data (us : list (nat * exc (list cell))) (c : Chart)
  : Chart * exc unit :=
  match us with
  | [] => (c, Ok ())
  | (k, rhs) :: us' =>
      match rhs with
      | Throw e => (c, Throw e)
      | Ok d =>
          match datasets c !! k with
          | None => (c, Throw TypeError)
          | Some ds =>
              assign_data us'
                {| labels := labels c;
                   datasets :=
                     <[k := {| label := label ds; data := d; fill := fill ds |}]>
                       (datasets c) |}
          end
      end
  end.

(** The period button that was clicked: its parsed [data-period] and the
    tile it sits in, if any ([btn.closest('.tile-content')]). *)
Record Button := {
  btn_period : Z;
  btn_tile : option nat
}.

(** The assignments of [handlePeriodChange] to [chartToUpdate]. *)
Definition update_chart (h : Historical) (f : Forecast) (t : Timeline) (c : Chart)
  : Chart * exc unit :=
  assign_data
    [ (0%nat, Ok (historicalValues t));
      (1%nat, Ok (forecastValues t));
      (2%nat, band_series h (sigma_2_up f));
      (3%nat, band_series h (sigma_1_up f));
      (4%nat, band_series h (sigma_1_down f));
      (5%nat, band_series h (sigma_2_down f)) ]
    {| labels := allDates t; datasets := datasets c |}.

(** [handlePeriodChange(btn)] *)
Definition handlePeriodChange (btn : Button) (st : AppState)
  : AppState * exc unit :=
  match analysisResults st, fullChartData st with
  | Some _, Some (historical, forecast) =>
      let sliced := panel_window historical (btn_period btn) in
      match compose_timeline sliced forecast with
      | Throw e => (st, Throw e)
      | Ok t =>
          match btn_tile btn with
          | None =>
              match charts_forecast st with
              | None => (st, Ok ())
              | Some o =>
                  let '(c, r) := update_chart sliced forecast t (chart o) in
                  ({| analysisResults := analysisResults st;
                      fullChartData := fullChartData st;
                      charts_forecast := Some {| chart := c; destroyed := destroyed o |};
                      tiles := tiles st |}, r)
              end
          | Some i =>
              match tiles st !! i with
              | None => (st, Ok ())
              | Some content =>
                  match forecast_canvas content with
                  | None => (st, Ok ())
                  | Some cv =>
                      match canvas_chart cv with
                      | None => (st, Ok ())
                      | Some ch =>
                          let '(c, r) := update_chart sliced forecast t ch in
                          let cv' := {| _fullData := _fullData cv; canvas_chart := Some c |} in
                          ({| analysisResults := analysisResults st;
                              fullChartData := fullChartData st;
                              charts_forecast := charts_forecast st;
                              tiles := <[i := set_container content (ForecastCanvas cv')]> (tiles st) |}, r)
                      end
                  end
              end
          end
      end
  | _, _ => (st, Ok ())
  end.

(** A run of handler invocations: each starts from the state the previous
    one left, whether or not it threw. *)
Definition run_events {S E : Type} (step : E → S → S * exc unit)
    (es : list E) (s : S) : S :=
  foldl (λ s e, fst (step e s)) s es.

(** ** Loading a tile *)

Definition set_period_onclick (content : Content) (k : PeriodHandler) : Content :=
  {| chartContainer := chartContainer content;
     period_onclick := Some k;
     diff_chart := diff_chart content |}.

(** The body of [GET /api/precomputed/{series_id}]. *)
Record Precomputed := {
  pre_error : option string;
  pre_result : option Result;
  best_model : option string
}.

(** What [await fetch(...)] and [await response.json()] deliver: a
    rejection (network failure, unparsable body) or the parsed body. *)
Inductive FetchOutcome :=
  | FetchRejected (e : js_error)
  | FetchJson (body : Precomputed).

(** A string in a boolean position: absent and empty are falsy. *)
Definition truthy (s : option string) : option string :=
  match s with
  | Some EmptyString => None
  | other => other
  end.

(** [loadPrecomputedModel(content, indicator)] on the tile [i], run to
    completion with the given fetch outcome.  The statistics and quality
    panels, which only format numbers and text, are left out. *)
Definition loadPrecomputedModel (i : nat) (outcome : FetchOutcome) (st : AppState)
  : AppState :=
  match tiles st !! i with
  | None => st
  | Some content =>
      match chartContainer content with
      | None => st
      | Some _ =>
          let loading := set_container content Spinner in
          let restored := set_container loading (ForecastCanvas new_canvas) in
          let with_tile (c : Content) (s : AppState) :=
            {| analysisResults := analysisResults s;
               fullChartData := fullChartData s;
               charts_forecast := charts_forecast s;
               tiles := <[i := c]> (tiles s) |} in
          match outcome with
          | FetchRejected _ => with_tile restored st
          | FetchJson body =>
              match truthy (pre_error body) with
              | Some msg =>
                  with_tile
                    (set_container loading
                       (Placeholder ("Model not ready: " +:+ msg))) st
              | None =>
                  match pre_result body with
                  | None => with_tile restored st
                  | Some result =>
                      let st' :=
                        {| analysisResults := Some result;
                           fullChartData :=
                             Some (historical result, forecast result);
                           charts_forecast := charts_forecast st;
                           tiles := tiles st |} in
                      match renderTileForecastChart restored result 12 with
                      | (rendered, Throw _) =>
                          with_tile
                            (set_container rendered (ForecastCanvas new_canvas)) st'
                      | (rendered, Ok _) =>
                          let bound := set_period_onclick rendered FromCanvas in
                          with_tile
                            (match comparison result with
                             | Some _ => renderTileDiffChart bound result
                             | None => bound
                             end) st'
                      end
                  end
              end
          end
      end
  end.

(** [runTileAnalysis], from the arrival of a successful response; the
    surrounding [catch] reports a throw in an alert. *)
Definition runTileAnalysis_render (content : Content) (analysisData : Result)
  : Content :=
  match renderTileForecastChart content analysisData 12 with
  | (rendered, Throw _) => rendered
  | (rendered, Ok _) =>
      let bound := set_period_onclick rendered (FromAnalysis analysisData) in
      match comparison analysisData with
      | Some _ => renderTileDiffChart bound analysisData
      | None => bound
      end
  end.

(** The tile shows a canvas that keeps [r] in full, and its period
    buttons re-render either that stored payload or [r] itself. *)
Definition tile_ready (r : Result) (content : Content) : Prop :=
  (∃ cv, forecast_canvas content = Some cv ∧ _fullData cv = Some r)
  ∧ (period_onclick content = Some FromCanvas
     ∨ period_onclick content = Some (FromAnalysis r)).

(** The analysis panel shows [r]: the payload is stored in full and the
    chart is one that [renderForecastChart] built. *)
Definition panel_shows (r : Result) (st : AppState) : Prop :=
  analysisResults st = Some r
  ∧ fullChartData st = Some (historical r, forecast r)
  ∧ ∃ h0 pc, dates h0 ≠ [] ∧ panel_chart h0 (forecast r) = Ok pc
             ∧ charts_forecast st = Some {| chart := pc; destroyed := false |}.

End Model.

Arguments cell V : clear implicits.
Arguments Historical V : clear implicits.
Arguments Forecast V : clear implicits.
Arguments Comparison V : clear implicits.
Arguments Result V : clear implicits.
Arguments Timeline V : clear implicits.
Arguments Dataset V : clear implicits.
Arguments Chart V : clear implicits.
Arguments Canvas V : clear implicits.
Arguments ChartContainer V : clear implicits.
Arguments PeriodHandler V : clear implicits.
Arguments Content V : clear implicits.
Arguments ChartObj V : clear implicits.
Arguments AppState V : clear implicits.
Arguments Precomputed V : clear implicits.
Arguments FetchOutcome V : clear implicits.

(** ** The calendar *)

(** A calendar entry as the client reads it; absent and [null] fields are
    [None]. *)
Record Indicator := {
  series_id : option string;
  type : option string;
  ticker : option string
}.

(** The [<details>] element built for one indicator. *)
Record Tile := {
  tile_id : string;
  tile_type : string;
  tile_indicator : Indicator
}.

(** A child of [#calendarList]. *)
Inductive Node :=
  | DateHeader (text : string)
  | Details (t : Tile).

Definition is_alnum (c : ascii) : bool :=
  let n := nat_of_ascii c in
  ((48 <=? n) && (n <=? 57) || (65 <=? n) && (n <=? 90)
   || (97 <=? n) && (n <=? 122))%nat.

(** [s.replace(/[^a-zA-Z0-9]/g, '_')] on an ASCII string *)
Fixpoint sanitize (s : string) : string :=
  match s with
  | EmptyString => EmptyString
  | String c rest => String (if is_alnum c then c else "_"%char) (sanitize rest)
  end.

Definition make_tile (indicator : Indicator) (sid : string) : Tile :=
  {| tile_id := "tile-" +:+ sanitize sid;
     tile_type := default "fred"%string (truthy (type indicator));
     tile_indicator := indicator |}.

(** [try { body } catch (e) { handler }] *)
Definition try_catch {A} (body : exc A) (handler : js_error → exc A) : exc A :=
  match body with
  | Ok a => Ok a
  | Throw e => handler e
  end.

(** A [for ... of] loop threading the state and stopping at a throw. *)
Fixpoint for_of {A S} (body : S → A → exc S) (s : S) (l : list A) : exc S :=
  match l with
  | [] => Ok s
  | x :: l' => s' ← body s x; for_of body s' l'
  end.

Section Calendar.
(** [new Date(dateKey).toLocaleDateString('en-US', ...)] *)
Variable toLocaleDateString : string → string.
(** The DOM calls inside the per-tile [try]: [details.appendChild],
    [details.addEventListener], [list.appendChild]. *)
Variable attach : Tile → exc unit.

Definition formatDateKey (dateKey : string) : string :=
  if decide (dateKey = "9999-12-31"%string) then "Upcoming / TBD"%string
  else if decide (dateKey = "TBD"%string ∨ dateKey = "Error"%string) then dateKey
  else toLocaleDateString dateKey.

(** The body of the inner loop of [renderCalendar]; [children] is the
    content of the element [list]. *)
Definition render_indicator (children : list Node) (entry : option Indicator)
  : exc (list Node) :=
  match entry with
  | None => Ok children
  | Some indicator =>
      match truthy (series_id indicator) with
      | None => Ok children
      | Some sid =>
          let details := make_tile indicator sid in
          try_catch
            (_ ← attach details; Ok (children ++ [Details details]))
            (λ _, Ok children)
      end
  end.

(** [renderCalendar(calendar)]: the children of [#calendarList] once the
    loops are done.  [calendar] lists [Object.entries(calendar)]. *)
Definition renderCalendar (calendar : list (string * list (option Indicator)))
  : exc (list Node) :=
  for_of
    (λ children entry,
       let '(dateKey, indicators) := entry in
       for_of render_indicator
         (children ++ [DateHeader (formatDateKey dateKey)]) indicators)
    [] calendar.

(** The tile [renderCalendar] builds for an entry it does not skip. *)
Definition tile_of (entry : option Indicator) : option Tile :=
  indicator ← entry;
  sid ← truthy (series_id indicator);
  Some (make_tile indicator sid).

(** The nodes one entry contributes: its tile, unless the entry is
    skipped or attaching the tile throws. *)
Definition entry_nodes (entry : option Indicator) : list Node :=
  match tile_of entry with
  | Some t => if is_ok (attach t) then [Details t] else []
  | None => []
  end.

(** The nodes one calendar day contributes. *)
Definition day_nodes (day : string * list (option Indicator)) : list Node :=
  DateHeader (formatDateKey day.1) :: (day.2 ≫= entry_nodes).
End Calendar.

(** ** Analyze requests *)

(** The result of [parseInt]. *)
Inductive jsnum :=
  | NaN
  | Int (z : Z).

(** A JSON value of a request body. *)
Inductive jsval :=
  | JNum (n : jsnum)
  | JStr (s : string)
  | JArr (l : list jsnum).

(** [parseInt(x) || d] *)
Definition or_default (n : jsnum) (d : Z) : Z :=
  match n with
  | NaN => d
  | Int 0 => d
  | Int z => z
  end.

(** The parsed inputs of the analysis panel. *)
Record PanelForm := {
  nTest : jsnum;
  hFuture : jsnum;
  paramP : jsnum;
  paramD : jsnum;
  paramQ : jsnum;
  maWindows : list jsnum;
  mcSims : jsnum
}.

(** [getModelParams(modelType)]; [None] is the [undefined] of a switch that
    matches no case. *)
Definition getModelParams (modelType : string) (form : PanelForm)
  : option (gmap string jsval) :=
  if decide (modelType = "ARIMA"%string) then
    Some (<["order" := JArr [paramP form; paramD form; paramQ form]]>
          (<["n_test" := JNum (nTest form)]>
           (<["h_future" := JNum (hFuture form)]> ∅)))
  else if decide (modelType = "MovingAverage"%string) then
    Some (<["windows" := JArr (maWindows form)]>
          (<["n_test" := JNum (nTest form)]>
           (<["h_future" := JNum (hFuture form)]> ∅)))
  else if decide (modelType = "MonteCarlo"%string) then
    Some (<["simulations" := JNum (mcSims form)]>
          (<["n_test" := JNum (nTest form)]>
           (<["h_future" := JNum (hFuture form)]> ∅)))
  else None.

(** [{ series_id, model_type, ...params }] *)
Definition analyze_body (sid modelType : string) (params : option (gmap string jsval))
  : gmap string jsval :=
  default ∅ params
    ∪ <["series_id" := JStr sid]> (<["model_type" := JStr modelType]> ∅).

(** The body [runAnalysis] posts to [/api/analyze]. *)
Definition runAnalysis_request (sid modelType : string) (form : PanelForm)
  : gmap string jsval :=
  analyze_body sid modelType (getModelParams modelType form).

(** The parsed inputs of a tile's configuration bar. *)
Record TileForm := {
  order_p : jsnum;
  order_d : jsnum;
  order_q : jsnum;
  n_test : jsnum;
  h_future : jsnum
}.

(** The body [runTileAnalysis] posts to [/api/analyze]. *)
Definition runTileAnalysis_request (sid modelType : string) (form : TileForm)
  : gmap string jsval :=
  let orderP := or_default (order_p form) 1 in
  let orderD := or_default (order_d form) 1 in
  let orderQ := or_default (order_q form) 1 in
  let nTest := or_default (n_test form) 12 in
  let hFuture := or_default (h_future form) 6 in
  let params : gmap string jsval :=
    <["n_test" := JNum (Int nTest)]> (<["h_future" := JNum (Int hFuture)]> ∅) in
  let params :=
    if decide (modelType = "ARIMA"%string)
    then <["order" := JArr [Int orderP; Int orderD; Int orderQ]]> params
    else params in
  analyze_body sid modelType (Some params).

(** The model configuration the specification recognises, under the wire
    names of the shared fields ([n_test], [h_future]). *)
Definition has_shared_fields (body : gmap string jsval) : Prop :=
  (∃ n, body !! "n_test" = Some (JNum n)) ∧ (∃ n, body !! "h_future" = Some (JNum n)).

Definition has_variant_field (modelType : string) (body : gmap string jsval) : Prop :=
  if decide (modelType = "ARIMA"%string) then
    ∃ p d q, body !! "order" = Some (JArr [p; d; q])
  else if decide (modelType = "MovingAverage"%string) then
    ∃ ws, body !! "windows" = Some (JArr ws)
  else if decide (modelType = "MonteCarlo"%string) then
    ∃ n, body !! "simulations" = Some (JNum n)
  else True.

Definition has_model_config (modelType : string) (body : gmap string jsval) : Prop :=
  has_variant_field modelType body ∧ has_shared_fields body.

Definition sample_tile_form : TileForm :=
  {| order_p := Int 2; order_d := Int 0; order_q := Int 1;
     n_test := Int 12; h_future := Int 6 |}.

(** *** The card client ([static/script.js]) *)

(** [fetchAnalysis]: [{ api_key, series_id, ...params }] *)
Definition fetchAnalysis_payload (apiKey sid : string) (params : gmap string jsval)
  : gmap string jsval :=
  params ∪ <["api_key" := JStr apiKey]> (<["series_id" := JStr sid]> ∅).

(** The parameters [loadIndicatorAnalysis] passes. *)
Definition loadIndicatorAnalysis_params : gmap string jsval :=
  <["model_type" := JStr "ARIMA"]>
    (<["p" := JNum (Int 1)]> (<["d" := JNum (Int 1)]> (<["q" := JNum (Int 1)]>
      (<["n_test" := JNum (Int 12)]> (<["h_future" := JNum (Int 6)]> ∅))))).

(** [updateAnalysis]: one parameter per [<input>] of the form, by name. *)
Definition updateAnalysis_params (modelType : string) (inputs : list (string * jsnum))
  : gmap string jsval :=
  foldl
    (λ params input,
       let '(name, value) := input in
       if decide (name = "ma_window"%string)
       then <["ma_windows" := JArr [value]]> params
       else <[name := JNum value]> params)
    (<["model_type" := JStr modelType]> ∅) inputs.

(** The inputs of [renderARIMAParams], [renderMAParams], [renderMonteParams]. *)
Definition arima_inputs (p d q nTest hFuture : jsnum) : list (string * jsnum) :=
  [("p", p); ("d", d); ("q", q); ("n_test", nTest); ("h_future", hFuture)]%string.

Definition ma_inputs (window nTest hFuture : jsnum) : list (string * jsnum) :=
  [("ma_window", window); ("n_test", nTest); ("h_future", hFuture)]%string.

Definition monte_inputs (sims nTest hFuture : jsnum) : list (string * jsnum) :=
  [("mc_sims", sims); ("n_test", nTest); ("h_future", hFuture)]%string.

(** ** What the specification calls a band series *)

Section Bands.
Context {V : Type}.

(** A series over [H] historical and [F] forecast positions that is absent
    on the historical range and carries [sigma] on the forecast range. *)
Definition band_shape (H F : nat) (sigma : list V) (s : list (cell V)) : Prop :=
  length s = (H + F)%nat
  ∧ (∀ i, (i < H)%nat → s !! i = Some Null)
  ∧ (∀ i, (i < F)%nat → s !! (H + i)%nat = Num <$> sigma !! i).

(** The chart has a dataset whose data is [sigma] behind one absence
    marker per historical date. *)
Definition emits_band (c : Chart V) (h : Historical V) (sigma : list V) : Prop :=
  ∃ ds, ds ∈ datasets c
        ∧ data ds = replicate (length (dates h)) Null ++ (Num <$> sigma).

Definition emits_four_bands (c : Chart V) (h : Historical V) (f : Forecast V) : Prop :=
  emits_band c h (sigma_1_up f) ∧ emits_band c h (sigma_1_down f)
  ∧ emits_band c h (sigma_2_up f) ∧ emits_band c h (sigma_2_down f).
End Bands.

(** ** Sample data *)

(** Eight monthly observations and a two-step forecast; integers stand in
    for the numbers. *)
Definition sample_historical : Historical Z :=
  {| dates := ["2024-01"; "2024-02"; "2024-03"; "2024-04";
               "2024-05"; "2024-06"; "2024-07"; "2024-08"]%string;
     values := [101; 102; 103; 104; 105; 106; 107; 108] |}.

Definition sample_forecast : Forecast Z :=
  {| forecast_dates := ["2024-09"; "2024-10"]%string;
     forecast_values := [110; 111];
     sigma_1_up := [112; 113];
     sigma_1_down := [108; 109];
     sigma_2_up := [114; 115];
     sigma_2_down := [106; 107] |}.

Definition sample_result : Result Z :=
  {| historical := sample_historical;
     forecast := sample_forecast;
     comparison :=
       Some {| comparison_dates := ["2024-07"; "2024-08"]%string;
               actual_diff := [1; 1];
               predict_diff := [2; 0] |};
     opinion := None |}.

(** A payload with no observations at all. *)
Definition empty_result : Result Z :=
  {| historical := {| dates := []; values := [] |};
     forecast := sample_forecast;
     comparison := None;
     opinion := None |}.

(** The state before anything was analysed. *)
Definition initial_state : AppState Z :=
  {| analysisResults := None;
     fullChartData := None;
     charts_forecast := None;
     tiles := ∅ |}.

(** A fred tile as [renderCalendar] creates it. *)
Definition fresh_tile : Content Z :=
  {| chartContainer := Some (ForecastCanvas new_canvas);
     period_onclick := None;
     diff_chart := None |}.

(** One calendar day with a good entry, a [null], an entry without
    [series_id], an entry whose tile cannot be attached, and another good
    entry. *)
Definition sample_calendar : list (string * list (option Indicator)) :=
  [ ("2024-09-06"%string,
     [ Some {| series_id := Some "UNRATE"; type := None; ticker := None |};
       None;
       Some {| series_id := None; type := Some "economic"; ticker := None |};
       Some {| series_id := Some "BAD.ID"; type := Some "stock"; ticker := Some "BAD" |};
       Some {| series_id := Some "PERMIT"; type := Some "fred"; ticker := None |} ]%string) ].

Definition sample_attach (t : Tile) : exc unit :=
  if decide (tile_id t = "tile-BAD_ID"%string) then Throw TypeError else Ok ().

(** ** Reading the rendered calendar *)

Definition node_header (n : Node) : option string :=
  match n with
  | DateHeader text => Some text
  | Details _ => None
  end.

Definition node_tile (n : Node) : option Tile :=
  match n with
  | DateHeader _ => None
  | Details t => Some t
  end.

(** Every character is a letter, a digit or an underscore. *)
Fixpoint identifier_chars (s : string) : bool :=
  match s with
  | EmptyString => true
  | String c rest =>
      (is_alnum c || bool_decide (c = "_"%char)) && identifier_chars rest
  end.

(** ** The analysis panel as a whole *)

Section Panel.
Context {V : Type}.

(** The bar chart of [renderDiffChart] and [renderTileDiffChart]. *)
Definition diff_chart_of (c : Comparison V) : Chart V :=
  {| labels := comparison_dates c;
     datasets :=
       [ {| label := "Actual Diff"; data := Num <$> actual_diff c; fill := None |};
         {| label := "Predicted Diff"; data := Num <$> predict_diff c; fill := None |} ] |}.

(** [renderDiffChart(data)]: reading [comparison.dates] of an absent
    [comparison] is a TypeError. *)
Definition renderDiffChart (data : Result V) : exc (Chart V) :=
  match comparison data with
  | Some c => Ok (diff_chart_of c)
  | None => Throw TypeError
  end.

(** [chart.destroy()] on a chart that may not exist yet. *)
Definition destroy (o : option (ChartObj V)) : option (ChartObj V) :=
  (λ c, {| chart := chart c; destroyed := true |}) <$> o.

(** What went wrong in [runAnalysis], as its alert reports it. *)
Inductive Failure :=
  | HttpFailure (message : string)
  | Thrown (e : js_error)
  | Rejected.

Inductive Alert :=
  | SelectIndicatorFirst
  | AnalysisError (f : Failure).

(** What the [POST /api/analyze] delivers: a rejected fetch, a response
    that is not ok (with the [detail] of its body), or the analysis. *)
Inductive AnalyzeOutcome :=
  | AnalyzeRejected
  | AnalyzeHttpError (detail : option string)
  | AnalyzeOk (data : Result V).

(** The analysis panel: the application state, the selected indicator,
    [state.charts.diff], the loading overlay, the alerts shown so far, the
    payload and model whose statistics and assessment are displayed, and
    the number of correlation loads started. *)
Record Panel := {
  app : AppState V;
  currentIndicator : option string;
  charts_diff : option (ChartObj V);
  overlay : bool;
  alerts : list Alert;
  summary : option (Result V * string);
  correlation_loads : nat
}.

(** [runAnalysis()], run to completion with the given outcome of the
    request.  [try], [catch] and [finally] are those of the source: every
    throw ends in an alert and the overlay is hidden last. *)
Definition runAnalysis (modelType : string) (outcome : AnalyzeOutcome) (p : Panel)
  : Panel :=
  match currentIndicator p with
  | None =>
      {| app := app p;
         currentIndicator := currentIndicator p;
         charts_diff := charts_diff p;
         overlay := overlay p;
         alerts := alerts p ++ [SelectIndicatorFirst];
         summary := summary p;
         correlation_loads := correlation_loads p |}
  | Some _ =>
      let failed (a : AppState V) (d : option (ChartObj V)) (f : Failure) :=
        {| app := a;
           currentIndicator := currentIndicator p;
           charts_diff := d;
           overlay := false;
           alerts := alerts p ++ [AnalysisError f];
           summary := summary p;
           correlation_loads := correlation_loads p |} in
      match outcome with
      | AnalyzeRejected => failed (app p) (charts_diff p) Rejected
      | AnalyzeHttpError detail =>
          failed (app p) (charts_diff p)
            (HttpFailure (default "Analysis failed"%string (truthy detail)))
      | AnalyzeOk analysisData =>
          let stored :=
            {| analysisResults := Some analysisData;
               fullChartData := fullChartData (app p);
               charts_forecast := charts_forecast (app p);
               tiles := tiles (app p) |} in
          match renderForecastChart analysisData stored with
          | (a, Throw e) => failed a (charts_diff p) (Thrown e)
          | (a, Ok _) =>
              match renderDiffChart analysisData with
              | Throw e => failed a (destroy (charts_diff p)) (Thrown e)
              | Ok c =>
                  {| app := a;
                     currentIndicator := currentIndicator p;
                     charts_diff := Some {| chart := c; destroyed := false |};
                     overlay := false;
                     alerts := alerts p;
                     summary := Some (analysisData, modelType);
                     correlation_loads := S (correlation_loads p) |}
              end
          end
      end
  end.
End Panel.

Arguments Failure : clear implicits.
Arguments Alert : clear implicits.
Arguments AnalyzeOutcome V : clear implicits.
Arguments Panel V : clear implicits.

(** ** The card client's analysis cache ([static/script.js]) *)

(** [String(n)] *)
Definition js_number_string (n : jsnum) : string :=
  match n with
  | NaN => "NaN"
  | Int z => pretty z
  end.

(** [`${v}`] in a template literal *)
Definition template (v : option jsval) : string :=
  match v with
  | None => "undefined"
  | Some (JNum n) => js_number_string n
  | Some (JStr s) => s
  | Some (JArr l) => String.concat "," (js_number_string <$> l)
  end.

(** [`${v || ''}`]: absent, [0], [NaN] and the empty string give nothing. *)
Definition or_empty (v : option jsval) : string :=
  match v with
  | None => ""
  | Some (JNum NaN) => ""
  | Some (JNum (Int 0)) => ""
  | other => template other
  end.

(** The key [fetchAnalysis] stores a response under. *)
Definition cacheKey (sid : string) (params : gmap string jsval) : string :=
  sid +:+ "_" +:+ template (params !! "model_type")
      +:+ "_" +:+ or_empty (params !! "p")
      +:+ "_" +:+ or_empty (params !! "d")
      +:+ "_" +:+ or_empty (params !! "q").

(** The key [toggleIndicatorCard] looks up. *)
Definition default_key (sid : string) : string := sid +:+ "_ARIMA_1_1_1".

Section Cards.
Context {V : Type}.

(** One indicator card and the global state it shares: whether the card is
    collapsed, [state.analysisCache], [state.expandedIndicators], and the
    number of default analyses requested by [toggleIndicatorCard] that have
    not been answered yet. *)
Record CardClient := {
  card_collapsed : bool;
  analysisCache : gmap string (Result V);
  expandedIndicators : gset string;
  in_flight : nat
}.

(** [fetchAnalysis], once the response is in: only a successful response
    ([Some]) is cached. *)
Definition fetchAnalysis_store (sid : string) (params : gmap string jsval)
    (response : option (Result V)) (cache : gmap string (Result V))
  : gmap string (Result V) :=
  match response with
  | Some data => <[cacheKey sid params := data]> cache
  | None => cache
  end.

(** [toggleIndicatorCard(card, indicator)] up to its [await]: expanding
    without a cached default analysis starts [loadIndicatorAnalysis] and
    suspends; otherwise the set of expanded indicators is updated at once. *)
Definition toggleIndicatorCard (sid : string) (s : CardClient) : CardClient :=
  if card_collapsed s then
    match analysisCache s !! default_key sid with
    | None =>
        {| card_collapsed := false;
           analysisCache := analysisCache s;
           expandedIndicators := expandedIndicators s;
           in_flight := S (in_flight s) |}
    | Some _ =>
        {| card_collapsed := false;
           analysisCache := analysisCache s;
           expandedIndicators := {[ sid ]} ∪ expandedIndicators s;
           in_flight := in_flight s |}
    end
  else
    {| card_collapsed := true;
       analysisCache := analysisCache s;
       expandedIndicators := expandedIndicators s ∖ {[ sid ]};
       in_flight := in_flight s |}.

(** The response to one pending [loadIndicatorAnalysis] arrives and the
    suspended [toggleIndicatorCard] resumes after its [await]. *)
Definition default_analysis_arrives (sid : string) (response : option (Result V))
    (s : CardClient) : CardClient :=
  match in_flight s with
  | O => s
  | S n =>
      {| card_collapsed := card_collapsed s;
         analysisCache :=
           fetchAnalysis_store sid loadIndicatorAnalysis_params response
             (analysisCache s);
         expandedIndicators := {[ sid ]} ∪ expandedIndicators s;
         in_flight := n |}
  end.
End Cards.

Arguments CardClient V : clear implicits.

(** A panel with an indicator selected and nothing analysed yet. *)
Definition sample_panel : Panel Z :=
  {| app := initial_state;
     currentIndicator := Some "UNRATE"%string;
     charts_diff := None;
     overlay := false;
     alerts := [];
     summary := None;
     correlation_loads := 0 |}.

(** A collapsed card with an empty cache. *)
Definition sample_card : CardClient Z :=
  {| card_collapsed := true;
     analysisCache := ∅;
     expandedIndicators := ∅;
     in_flight := 0 |}.

(** * Properties *)

(** ** Arrays *)

Lemma js_slice_0 {A} (a : list A) : js_slice 0 a = a.
Proof.
  unfold js_slice, js_length. simpl.
  replace (Z.to_nat (Z.min 0 (Z.of_nat (length a)))) with 0%nat by lia.
  reflexivity.
Qed.

Lemma js_slice_nonneg {A} (k : Z) (a : list A) :
  0 ≤ k → js_slice k a = drop (Z.to_nat k) a.
Proof.
  intros Hk. unfold js_slice, js_length.
  destruct (Z.ltb_spec k 0) as [?|_]; [lia|].
  destruct (Z.le_gt_cases k (Z.of_nat (length a))) as [Hle|Hgt].
  - by rewrite Z.min_l.
  - rewrite Z.min_r by lia. rewrite Nat2Z.id.
    rewrite !drop_ge; [done|lia|lia].
Qed.

Lemma js_length_slice_tail {A} (a : list A) (n count : Z) :
  0 < count → js_length a = n →
  js_length (js_slice (Z.max 0 (n - count)) a) = Z.min count n.
Proof.
  intros Hc Hn. rewrite js_slice_nonneg by lia.
  unfold js_length in *. rewrite length_drop. lia.
Qed.

Lemma js_Array_fill_nonneg {A} (n : Z) (x : A) :
  0 ≤ n → js_Array_fill n x = Ok (replicate (Z.to_nat n) x).
Proof.
  intros Hn. unfold js_Array_fill.
  by destruct (Z.ltb_spec n 0) as [?|_]; [lia|].
Qed.

Lemma js_Array_fill_length {A B} (a : list A) (x : B) :
  js_Array_fill (js_length a) x = Ok (replicate (length a) x).
Proof.
  unfold js_length. rewrite js_Array_fill_nonneg by lia. by rewrite Nat2Z.id.
Qed.

Lemma js_Array_fill_neg {A} (n : Z) (x : A) :
  n < 0 → js_Array_fill n x = Throw RangeError.
Proof.
  intros Hn. unfold js_Array_fill.
  by destruct (Z.ltb_spec n 0) as [_|?]; [|lia].
Qed.

(** ** Windowing *)

Lemma panel_window_tile_window {V} (h : Historical V) (periodValue : Z) :
  panel_window h periodValue = tile_window h periodValue.
Proof.
  unfold panel_window, tile_window.
  destruct (0 <? periodValue); [done|].
  rewrite !js_slice_0. by destruct h.
Qed.

Lemma tile_window_positive {V} (h : Historical V) (count : Z) :
  0 < count →
  tile_window h count =
    {| dates := drop (Z.to_nat (Z.max 0 (js_length (dates h) - count))) (dates h);
       values := drop (Z.to_nat (Z.max 0 (js_length (dates h) - count))) (values h) |}.
Proof.
  intros Hc. unfold tile_window.
  destruct (Z.ltb_spec 0 count) as [_|?]; [|lia].
  cbv zeta. by rewrite !js_slice_nonneg by lia.
Qed.

Lemma tile_window_whole {V} (h : Historical V) (periodValue : Z) :
  js_length (dates h) ≤ periodValue → tile_window h periodValue = h.
Proof.
  intros Hle. unfold tile_window.
  destruct (0 <? periodValue); [|done].
  cbv zeta. rewrite Z.max_l by lia. rewrite !js_slice_0. by destruct h.
Qed.

Lemma tile_window_aligned {V} (h : Historical V) (periodValue : Z) :
  aligned_historical h → aligned_historical (tile_window h periodValue).
Proof.
  unfold aligned_historical, tile_window. intros Hal.
  destruct (0 <? periodValue); [|done].
  cbv zeta. simpl. rewrite !js_slice_nonneg by lia.
  rewrite !length_drop. lia.
Qed.

Lemma tile_window_nonempty {V} (h : Historical V) (periodValue : Z) :
  dates h ≠ [] → dates (tile_window h periodValue) ≠ [].
Proof.
  intros Hne. unfold tile_window.
  destruct (Z.ltb_spec 0 periodValue) as [Hp|?]; [|done].
  cbv zeta. simpl. rewrite js_slice_nonneg by lia.
  intros Heq. apply (f_equal length) in Heq.
  rewrite length_drop in Heq. simpl in Heq.
  destruct (dates h) as [|d ds]; [done|].
  unfold js_length in Heq. simpl length in Heq. lia.
Qed.

Lemma handlePeriodChange_keeps_data {V} (btn : Button) (st : AppState V) :
  analysisResults (fst (handlePeriodChange btn st)) = analysisResults st
  ∧ fullChartData (fst (handlePeriodChange btn st)) = fullChartData st.
Proof. unfold handlePeriodChange. by repeat case_match. Qed.

(** C1.  For a positive [count] the resolver slices [historical.dates] and
    [historical.values] from [max(0, len(dates) - count)] onward; the
    sliced arrays have length [min(count, len(dates))] (for [values], when
    it is as long as [dates]); [forecast] and [comparison] are those of the
    input, the payload kept on the canvas is the input itself and
    [handlePeriodChange] leaves the stored payload as it was; a [count] of
    at least the history length returns the whole history.  The slicing of
    [handlePeriodChange] gives the same arrays. *)
Theorem resolve_last_n {V} (r : Result V) (count : Z) :
  0 < count →
  let n := js_length (dates (historical r)) in
  let startIndex := Z.max 0 (n - count) in
  let w := resolve r count in
  dates (historical w) = drop (Z.to_nat startIndex) (dates (historical r))
  ∧ values (historical w) = drop (Z.to_nat startIndex) (values (historical r))
  ∧ js_length (dates (historical w)) = Z.min count n
  ∧ (aligned_historical (historical r) →
     js_length (values (historical w)) = Z.min count n)
  ∧ forecast w = forecast r
  ∧ comparison w = comparison r
  ∧ (∀ content cv, forecast_canvas content = Some cv →
       ∃ cv', forecast_canvas (fst (renderTileForecastChart content r count)) = Some cv'
              ∧ _fullData cv' = Some r)
  ∧ (∀ tile (st : AppState V),
       let st' := fst (handlePeriodChange {| btn_period := count; btn_tile := tile |} st) in
       analysisResults st' = analysisResults st
       ∧ fullChartData st' = fullChartData st)
  ∧ (n ≤ count → historical w = historical r)
  ∧ panel_window (historical r) count = historical w.
Proof.
  intros Hc n startIndex w. subst w. unfold resolve. simpl.
  rewrite tile_window_positive by done. simpl. fold n. fold startIndex.
  assert (Hd : js_length (drop (Z.to_nat startIndex) (dates (historical r)))
               = Z.min count n).
  { unfold js_length. rewrite length_drop. subst startIndex n.
    unfold js_length. lia. }
  repeat split; try done.
  - intros Hal. unfold js_length. rewrite length_drop.
    unfold aligned_historical in Hal. rewrite Hal.
    subst startIndex n. unfold js_length. lia.
  - intros content cv Hcv. unfold renderTileForecastChart. rewrite Hcv.
    destruct (tile_chart _ _); simpl; eauto.
  - apply handlePeriodChange_keeps_data.
  - apply handlePeriodChange_keeps_data.
  - intros Hle. subst startIndex. rewrite Z.max_l by lia. simpl.
    by destruct (historical r).
  - rewrite panel_window_tile_window. by apply tile_window_positive.
Qed.

(** C5.  Windowing is idempotent: windowing the [LastN(c)] slice again with
    [c] or with any larger count returns the same historical slice, for the
    tile's slicing and for the panel's. *)
Theorem resolve_idempotent {V} (r : Result V) (c c' : Z) :
  0 < c → c ≤ c' →
  historical (resolve (resolve r c) c') = historical (resolve r c)
  ∧ historical (resolve (resolve r c) c) = historical (resolve r c)
  ∧ panel_window (panel_window (historical r) c) c' = panel_window (historical r) c.
Proof.
  intros Hc Hcc'.
  assert (Hlen : js_length (dates (tile_window (historical r) c)) ≤ c).
  { rewrite tile_window_positive by done. simpl.
    unfold js_length. rewrite length_drop. lia. }
  split; [|split].
  - simpl. apply tile_window_whole. lia.
  - simpl. apply tile_window_whole. lia.
  - rewrite !panel_window_tile_window. apply tile_window_whole. lia.
Qed.

(** ** Composition *)

Lemma js_index_last {V} (a : list V) :
  js_index a (js_length a - 1) = from_option Num Undefined (last a).
Proof.
  unfold js_index, js_length. destruct a as [|x a]; [done|].
  destruct (Z.ltb_spec (Z.of_nat (length (x :: a)) - 1) 0) as [Hlt|_].
  { simpl length in Hlt. lia. }
  rewrite last_lookup.
  replace (Z.to_nat (Z.of_nat (length (x :: a)) - 1))
    with (Nat.pred (length (x :: a))) by (simpl length; lia).
  by destruct ((x :: a) !! Nat.pred (length (x :: a))).
Qed.

Lemma compose_timeline_nonempty {V} (h : Historical V) (f : Forecast V) :
  dates h ≠ [] →
  compose_timeline h f =
    Ok {| allDates := dates h ++ forecast_dates f;
          historicalValues :=
            (Num <$> values h) ++ replicate (length (forecast_dates f)) Null;
          forecastValues :=
            replicate (length (dates h) - 1)%nat Null
              ++ [from_option Num Undefined (last (values h))]
              ++ (Num <$> forecast_values f) |}.
Proof.
  intros Hne. unfold compose_timeline.
  rewrite js_Array_fill_length. cbn [mbind exc_bind].
  rewrite js_Array_fill_nonneg.
  2:{ unfold js_length. destruct (dates h); [done|]. simpl length. lia. }
  cbn [mbind exc_bind mret exc_ret]. rewrite js_index_last.
  replace (Z.to_nat (js_length (dates h) - 1)) with (length (dates h) - 1)%nat
    by (unfold js_length; lia).
  reflexivity.
Qed.

Lemma compose_timeline_empty {V} (h : Historical V) (f : Forecast V) :
  dates h = [] → compose_timeline h f = Throw RangeError.
Proof.
  intros He. unfold compose_timeline.
  rewrite js_Array_fill_length. cbn [mbind exc_bind].
  rewrite js_Array_fill_neg; [done|]. rewrite He. unfold js_length. simpl. lia.
Qed.

Lemma band_series_ok {V} (h : Historical V) (sigma : list V) :
  band_series h sigma = Ok (replicate (length (dates h)) Null ++ (Num <$> sigma)).
Proof. unfold band_series. by rewrite js_Array_fill_length. Qed.

Lemma panel_chart_nonempty {V} (h : Historical V) (f : Forecast V) :
  dates h ≠ [] →
  ∃ t, compose_timeline h f = Ok t ∧
  panel_chart h f =
    Ok {| labels := allDates t;
          datasets :=
            [ {| label := "Historical"; data := historicalValues t; fill := None |};
              {| label := "Forecast"; data := forecastValues t; fill := None |};
              {| label := "+2σ RMSE";
                 data := replicate (length (dates h)) Null ++ (Num <$> sigma_2_up f);
                 fill := None |};
              {| label := "+1σ RMSE";
                 data := replicate (length (dates h)) Null ++ (Num <$> sigma_1_up f);
                 fill := Some 1 |};
              {| label := "-1σ RMSE";
                 data := replicate (length (dates h)) Null ++ (Num <$> sigma_1_down f);
                 fill := Some (-1) |};
              {| label := "-2σ RMSE";
                 data := replicate (length (dates h)) Null ++ (Num <$> sigma_2_down f);
                 fill := None |} ] |}.
Proof.
  intros Hne. eexists. split; [by apply compose_timeline_nonempty|].
  unfold panel_chart. rewrite compose_timeline_nonempty by done.
  by rewrite !band_series_ok.
Qed.

Lemma tile_chart_nonempty {V} (h : Historical V) (f : Forecast V) :
  dates h ≠ [] →
  ∃ t, compose_timeline h f = Ok t ∧
  tile_chart h f =
    Ok {| labels := allDates t;
          datasets :=
            [ {| label := "Historical"; data := historicalValues t; fill := None |};
              {| label := "Forecast"; data := forecastValues t; fill := None |};
              {| label := "+1σ RMSE";
                 data := replicate (length (dates h)) Null ++ (Num <$> sigma_1_up f);
                 fill := Some 1 |};
              {| label := "-1σ RMSE";
                 data := replicate (length (dates h)) Null ++ (Num <$> sigma_1_down f);
                 fill := None |} ] |}.
Proof.
  intros Hne. eexists. split; [by apply compose_timeline_nonempty|].
  unfold tile_chart. rewrite compose_timeline_nonempty by done.
  by rewrite !band_series_ok.
Qed.

Lemma panel_chart_empty {V} (h : Historical V) (f : Forecast V) :
  dates h = [] → panel_chart h f = Throw RangeError.
Proof. intros He. unfold panel_chart. by rewrite compose_timeline_empty. Qed.

Lemma tile_chart_empty {V} (h : Historical V) (f : Forecast V) :
  dates h = [] → tile_chart h f = Throw RangeError.
Proof. intros He. unfold tile_chart. by rewrite compose_timeline_empty. Qed.

(** The six assignments of [handlePeriodChange] succeed on a chart that has
    six datasets; labels and [fill] options stay as they were created. *)
Lemma update_chart_six {V} (h : Historical V) (f : Forecast V) (t : Timeline V)
    (c : Chart V) d0 d1 d2 d3 d4 d5 :
  datasets c = [d0; d1; d2; d3; d4; d5] →
  update_chart h f t c =
    ({| labels := allDates t;
        datasets :=
          [ {| label := label d0; data := historicalValues t; fill := fill d0 |};
            {| label := label d1; data := forecastValues t; fill := fill d1 |};
            {| label := label d2;
               data := replicate (length (dates h)) Null ++ (Num <$> sigma_2_up f);
               fill := fill d2 |};
            {| label := label d3;
               data := replicate (length (dates h)) Null ++ (Num <$> sigma_1_up f);
               fill := fill d3 |};
            {| label := label d4;
               data := replicate (length (dates h)) Null ++ (Num <$> sigma_1_down f);
               fill := fill d4 |};
            {| label := label d5;
               data := replicate (length (dates h)) Null ++ (Num <$> sigma_2_down f);
               fill := fill d5 |} ] |}, Ok ()).
Proof.
  intros Hds. unfold update_chart. rewrite !band_series_ok.
  simpl. rewrite Hds. reflexivity.
Qed.

(** C1 at twelve observations requested from a history of eight. *)
Lemma resolve_last_n_witness :
  0 < 12
  ∧ historical (resolve sample_result 12) = sample_historical
  ∧ js_length (dates (historical (resolve sample_result 12))) = 8.
Proof.
  pose proof (resolve_last_n sample_result 12 ltac:(lia)) as H.
  destruct H as (_ & _ & Hlen & _ & _ & _ & _ & _ & Hwhole & _).
  split; [lia|]. split.
  - apply Hwhole. vm_compute. discriminate.
  - rewrite Hlen. reflexivity.
Defined.

Example resolve_last_3 :
  historical (resolve sample_result 3)
  = {| dates := ["2024-06"; "2024-07"; "2024-08"]%string;
       values := [106; 107; 108] |}.
Proof. reflexivity. Qed.

Lemma resolve_idempotent_witness :
  0 < 3 ∧ 3 ≤ 5
  ∧ historical (resolve (resolve sample_result 3) 5)
    = historical (resolve sample_result 3).
Proof.
  split; [lia|]. split; [lia|].
  apply (resolve_idempotent sample_result 3 5); lia.
Defined.

Lemma band_shape_pad {V} (H F : nat) (sigma : list V) :
  length sigma = F →
  band_shape H F sigma (replicate H Null ++ (Num <$> sigma)).
Proof.
  intros HF. unfold band_shape. split; [|split].
  - rewrite length_app, length_replicate, length_fmap. lia.
  - intros i Hi. rewrite lookup_app_l by (rewrite length_replicate; lia).
    by apply lookup_replicate_2.
  - intros i Hi. rewrite lookup_app_r by (rewrite length_replicate; lia).
    rewrite length_replicate. replace (H + i - H)%nat with i by lia.
    by rewrite list_lookup_fmap.
Qed.

Lemma series_lengths {V} (h : Historical V) (f : Forecast V) :
  dates h ≠ [] → aligned_historical h →
  length (forecast_values f) = length (forecast_dates f) →
  length ((Num <$> values h) ++ replicate (length (forecast_dates f)) (@Null V))
  = length (dates h ++ forecast_dates f)
  ∧ length (replicate (length (dates h) - 1)%nat (@Null V)
              ++ [from_option Num Undefined (last (values h))]
              ++ (Num <$> forecast_values f))
    = length (dates h ++ forecast_dates f)
  ∧ (∀ sigma : list V, length sigma = length (forecast_dates f) →
       length (replicate (length (dates h)) (@Null V) ++ (Num <$> sigma))
       = length (dates h ++ forecast_dates f)).
Proof.
  intros Hne Hh Hfv. unfold aligned_historical in Hh.
  assert (Hpos : (1 ≤ length (dates h))%nat).
  { destruct (dates h); [done|]. simpl. lia. }
  split; [|split].
  - rewrite !length_app, length_replicate, length_fmap. lia.
  - rewrite !length_app, length_replicate, length_fmap. simpl. lia.
  - intros sigma Hs. rewrite !length_app, length_replicate, length_fmap. lia.
Qed.

(** C2.  On a slice with at least one observation and arrays of matching
    lengths, the date axis is the windowed historical dates followed by the
    forecast dates, and every value array that [renderForecastChart],
    [renderTileForecastChart] and [handlePeriodChange] emit is as long as
    that axis. *)
Theorem compose_lengths {V} (h : Historical V) (f : Forecast V) :
  dates h ≠ [] → aligned_historical h → aligned_forecast f →
  ∃ t pc tc,
    compose_timeline h f = Ok t
    ∧ panel_chart h f = Ok pc
    ∧ tile_chart h f = Ok tc
    ∧ allDates t = dates h ++ forecast_dates f
    ∧ labels pc = allDates t
    ∧ labels tc = allDates t
    ∧ length (historicalValues t) = length (allDates t)
    ∧ length (forecastValues t) = length (allDates t)
    ∧ Forall (λ ds, length (data ds) = length (allDates t)) (datasets pc)
    ∧ Forall (λ ds, length (data ds) = length (allDates t)) (datasets tc)
    ∧ (∀ c d0 d1 d2 d3 d4 d5,
         datasets c = [d0; d1; d2; d3; d4; d5] →
         update_chart h f t c = (fst (update_chart h f t c), Ok ())
         ∧ labels (fst (update_chart h f t c)) = allDates t
         ∧ Forall (λ ds, length (data ds) = length (allDates t))
                  (datasets (fst (update_chart h f t c)))).
Proof.
  intros Hne Hh (Hfv & H1u & H1d & H2u & H2d).
  destruct (series_lengths h f Hne Hh Hfv) as (Hhv & Hfc & Hband).
  destruct (panel_chart_nonempty h f Hne) as (t & Ht & Hpc).
  destruct (tile_chart_nonempty h f Hne) as (t' & Ht' & Htc).
  assert (t' = t) by congruence. subst t'.
  pose proof Ht as Ht0. rewrite compose_timeline_nonempty in Ht0 by done.
  injection Ht0 as <-.
  do 3 eexists. split; [exact Ht|]. split; [exact Hpc|]. split; [exact Htc|].
  cbn [allDates historicalValues forecastValues labels datasets].
  repeat split; try done.
  - repeat constructor; cbn [data]; auto.
  - repeat constructor; cbn [data]; auto.
  - erewrite update_chart_six by eassumption. reflexivity.
  - erewrite update_chart_six by eassumption. reflexivity.
  - erewrite update_chart_six by eassumption.
    cbn [fst datasets]. repeat constructor; cbn [data]; auto.
Qed.

Lemma compose_lengths_witness :
  sample_historical.(dates) ≠ []
  ∧ aligned_historical sample_historical
  ∧ aligned_forecast sample_forecast
  ∧ ∃ t, compose_timeline sample_historical sample_forecast = Ok t
         ∧ length (historicalValues t) = length (allDates t)
         ∧ length (forecastValues t) = length (allDates t).
Proof.
  assert (H1 : sample_historical.(dates) ≠ []) by (vm_compute; discriminate).
  assert (H2 : aligned_historical sample_historical) by reflexivity.
  assert (H3 : aligned_forecast sample_forecast) by (repeat split; reflexivity).
  destruct (compose_lengths sample_historical sample_forecast H1 H2 H3)
    as (t & pc & tc & Ht & _ & _ & _ & _ & _ & Hh & Hf & _).
  repeat split; try done. by exists t.
Defined.

(** C3.  With [H] windowed observations and [F] forecast values,
    [historicalValues] is the [H] values followed by [F] absence markers,
    and [forecastValues] is [H-1] absence markers, the last historical value
    at position [H-1], then the [F] forecast values; both lines carry the
    same value at position [H-1].  These are the arrays of the first two
    datasets of the panel chart and of the tile chart. *)
Theorem historical_forecast_layout {V} (h : Historical V) (f : Forecast V) :
  dates h ≠ [] → aligned_historical h →
  length (forecast_values f) = length (forecast_dates f) →
  let H := length (values h) in
  let F := length (forecast_values f) in
  ∃ t lastv pc tc,
    compose_timeline h f = Ok t
    ∧ last (values h) = Some lastv
    ∧ historicalValues t = (Num <$> values h) ++ replicate F Null
    ∧ forecastValues t =
        replicate (H - 1)%nat Null ++ [Num lastv] ++ (Num <$> forecast_values f)
    ∧ forecastValues t !! (H - 1)%nat = Some (Num lastv)
    ∧ historicalValues t !! (H - 1)%nat = Some (Num lastv)
    ∧ panel_chart h f = Ok pc
    ∧ tile_chart h f = Ok tc
    ∧ data <$> take 2 (datasets pc) = [historicalValues t; forecastValues t]
    ∧ data <$> take 2 (datasets tc) = [historicalValues t; forecastValues t].
Proof.
  intros Hne Hh Hfv H F. unfold aligned_historical in Hh.
  destruct (panel_chart_nonempty h f Hne) as (t & Ht & Hpc).
  destruct (tile_chart_nonempty h f Hne) as (t' & Ht' & Htc).
  assert (t' = t) by congruence. subst t'.
  pose proof Ht as Ht0. rewrite compose_timeline_nonempty in Ht0 by done.
  injection Ht0 as <-.
  assert (Hpos : (1 ≤ H)%nat).
  { subst H. rewrite Hh. destruct (dates h); [done|]. simpl. lia. }
  destruct (last (values h)) as [lastv|] eqn:Hlast.
  2:{ apply last_None in Hlast. subst H. rewrite Hlast in Hpos. simpl in Hpos. lia. }
  eexists _, lastv, _, _.
  split; [exact Ht|]. split; [done|].
  cbn [historicalValues forecastValues from_option].
  split; [by subst F; rewrite Hfv|].
  split; [by subst H; rewrite Hh|].
  split.
  { rewrite lookup_app_r by (rewrite length_replicate; subst H; lia).
    rewrite length_replicate.
    replace (H - 1 - (length (dates h) - 1))%nat with 0%nat by (subst H; lia).
    done. }
  split.
  { rewrite lookup_app_l by (rewrite length_fmap; subst H; lia).
    rewrite list_lookup_fmap. rewrite last_lookup in Hlast.
    replace (H - 1)%nat with (Nat.pred (length (values h))) by (subst H; lia).
    by rewrite Hlast. }
  split; [exact Hpc|]. split; [exact Htc|]. done.
Qed.

Lemma historical_forecast_layout_witness :
  sample_historical.(dates) ≠ []
  ∧ aligned_historical sample_historical
  ∧ length (forecast_values sample_forecast) = length (forecast_dates sample_forecast)
  ∧ ∃ t, compose_timeline sample_historical sample_forecast = Ok t
         ∧ forecastValues t !! 7%nat = Some (Num 108)
         ∧ historicalValues t !! 7%nat = Some (Num 108).
Proof.
  assert (H1 : sample_historical.(dates) ≠ []) by (vm_compute; discriminate).
  assert (H2 : aligned_historical sample_historical) by reflexivity.
  assert (H3 : length (forecast_values sample_forecast)
               = length (forecast_dates sample_forecast)) by reflexivity.
  destruct (historical_forecast_layout sample_historical sample_forecast H1 H2 H3)
    as (t & lastv & pc & tc & Ht & Hlast & _ & _ & Hf & Hh & _).
  repeat split; try done. exists t.
  vm_compute in Hlast. injection Hlast as <-. done.
Defined.

Example sample_tile_chart :
  tile_chart (tile_window sample_historical 3) sample_forecast
  = Ok {| labels := ["2024-06"; "2024-07"; "2024-08"; "2024-09"; "2024-10"]%string;
          datasets :=
            [ {| label := "Historical";
                 data := [Num 106; Num 107; Num 108; Null; Null]; fill := None |};
              {| label := "Forecast";
                 data := [Null; Null; Num 108; Num 110; Num 111]; fill := None |};
              {| label := "+1σ RMSE";
                 data := [Null; Null; Null; Num 112; Num 113]; fill := Some 1 |};
              {| label := "-1σ RMSE";
                 data := [Null; Null; Null; Num 108; Num 109]; fill := None |} ] |}.
Proof. reflexivity. Qed.

(** Exhibit the dataset at index [k] as the one that carries a band. *)
Ltac emit_at k :=
  unfold emits_band; cbn [datasets];
  eexists; split;
  [ eapply (list_elem_of_lookup_2 _ k); reflexivity | reflexivity ].

(** C4 as stated fails for the tile chart: on the sample slice
    [renderTileForecastChart] builds its chart, and no dataset of that chart
    carries [sigma_2_up]. *)
Lemma tile_chart_omits_sigma_2 :
  ∃ c, tile_chart sample_historical sample_forecast = Ok c
       ∧ ¬ emits_four_bands c sample_historical sample_forecast.
Proof.
  eexists. split; [reflexivity|].
  intros (_ & _ & (ds & Hin & Hd) & _).
  cbn [datasets] in Hin.
  repeat (apply elem_of_cons in Hin as [->|Hin]; [vm_compute in Hd; discriminate|]).
  by apply elem_of_nil in Hin.
Qed.

(** C4, amended.  On a slice with at least one observation whose band
    arrays are as long as the forecast: the panel chart
    ([renderForecastChart], and [handlePeriodChange] on its six datasets)
    emits all four band series; the tile chart has four datasets and emits
    [sigma_1_up] and [sigma_1_down] only.  Every emitted band is absent on
    the whole historical range and carries its band on the forecast range,
    so the upper and lower series of a pair have the same length and cover
    the same positions. *)
Theorem band_series_layout {V} (h : Historical V) (f : Forecast V) :
  dates h ≠ [] → aligned_forecast f →
  let H := length (dates h) in
  let F := length (forecast_dates f) in
  ∃ t pc tc,
    compose_timeline h f = Ok t
    ∧ panel_chart h f = Ok pc
    ∧ tile_chart h f = Ok tc
    ∧ emits_four_bands pc h f
    ∧ (∀ c d0 d1 d2 d3 d4 d5,
         datasets c = [d0; d1; d2; d3; d4; d5] →
         emits_four_bands (fst (update_chart h f t c)) h f)
    ∧ length (datasets tc) = 4%nat
    ∧ emits_band tc h (sigma_1_up f)
    ∧ emits_band tc h (sigma_1_down f)
    ∧ (∀ sigma,
         sigma ∈ [sigma_1_up f; sigma_1_down f; sigma_2_up f; sigma_2_down f] →
         band_shape H F sigma (replicate H Null ++ (Num <$> sigma)))
    ∧ length (replicate H (@Null V) ++ (Num <$> sigma_1_up f))
      = length (replicate H (@Null V) ++ (Num <$> sigma_1_down f))
    ∧ length (replicate H (@Null V) ++ (Num <$> sigma_2_up f))
      = length (replicate H (@Null V) ++ (Num <$> sigma_2_down f)).
Proof.
  intros Hne (Hfv & H1u & H1d & H2u & H2d) H F.
  destruct (panel_chart_nonempty h f Hne) as (t & Ht & Hpc).
  destruct (tile_chart_nonempty h f Hne) as (t' & Ht' & Htc).
  assert (t' = t) by congruence. subst t'.
  do 3 eexists. split; [exact Ht|]. split; [exact Hpc|]. split; [exact Htc|].
  cbn [datasets].
  split.
  { unfold emits_four_bands. cbn [datasets].
    split; [emit_at 3%nat|]. split; [emit_at 4%nat|].
    split; [emit_at 2%nat|emit_at 5%nat]. }
  split.
  { intros c d0 d1 d2 d3 d4 d5 Hds.
    erewrite update_chart_six by eassumption.
    unfold emits_four_bands. cbn [fst datasets].
    split; [emit_at 3%nat|]. split; [emit_at 4%nat|].
    split; [emit_at 2%nat|emit_at 5%nat]. }
  split; [done|].
  split; [emit_at 2%nat|]. split; [emit_at 3%nat|].
  split.
  { intros sigma Hin. apply band_shape_pad.
    repeat (apply elem_of_cons in Hin as [->|Hin]; [done|]).
    by apply elem_of_nil in Hin. }
  rewrite !length_app, !length_fmap. split; lia.
Qed.

Lemma band_series_layout_witness :
  sample_historical.(dates) ≠ []
  ∧ aligned_forecast sample_forecast
  ∧ ∃ pc, panel_chart sample_historical sample_forecast = Ok pc
          ∧ emits_four_bands pc sample_historical sample_forecast.
Proof.
  assert (H1 : sample_historical.(dates) ≠ []) by (vm_compute; discriminate).
  assert (H3 : aligned_forecast sample_forecast) by (repeat split; reflexivity).
  destruct (band_series_layout sample_historical sample_forecast H1 H3)
    as (t & pc & tc & _ & Hpc & _ & Hem & _).
  repeat split; try done. by exists pc.
Defined.

(** C10.  Composition is defined exactly on slices with at least one
    historical date.  With one, the arrays are built (and are as long as the
    axis when the input arrays agree in length).  With none,
    [Array(historical.dates.length - 1)] is called on a negative length and
    throws, the join cell read from an empty [values] is [undefined], and
    neither chart is built: [renderTileForecastChart] ends in a RangeError
    with the canvas left without a chart, [renderForecastChart] likewise. *)
Theorem compose_needs_observation {V} (h : Historical V) (f : Forecast V) :
  (dates h ≠ [] →
     ∃ t pc tc,
       compose_timeline h f = Ok t
       ∧ panel_chart h f = Ok pc
       ∧ tile_chart h f = Ok tc
       ∧ (aligned_historical h → aligned_forecast f →
          length (historicalValues t) = length (allDates t)
          ∧ length (forecastValues t) = length (allDates t)
          ∧ Forall (λ ds, length (data ds) = length (allDates t)) (datasets pc)
          ∧ Forall (λ ds, length (data ds) = length (allDates t)) (datasets tc)))
  ∧ (dates h = [] →
       js_length (dates h) - 1 < 0
       ∧ js_Array_fill (js_length (dates h) - 1) (@Null V) = Throw RangeError
       ∧ (values h = [] →
          js_index (values h) (js_length (values h) - 1) = Undefined)
       ∧ compose_timeline h f = Throw RangeError
       ∧ panel_chart h f = Throw RangeError
       ∧ tile_chart h f = Throw RangeError
       ∧ (∀ content cv data periodValue,
            forecast_canvas content = Some cv →
            tile_window (historical data) periodValue = h →
            forecast data = f →
            renderTileForecastChart content data periodValue
            = (set_container content
                 (ForecastCanvas {| _fullData := Some data; canvas_chart := None |}),
               Throw RangeError))
       ∧ (∀ data st,
            historical data = h → forecast data = f →
            snd (renderForecastChart data st) = Throw RangeError)).
Proof.
  split.
  - intros Hne.
    destruct (panel_chart_nonempty h f Hne) as (t & Ht & Hpc).
    destruct (tile_chart_nonempty h f Hne) as (t' & Ht' & Htc).
    assert (t' = t) by congruence. subst t'.
    do 3 eexists. split; [exact Ht|]. split; [exact Hpc|]. split; [exact Htc|].
    intros Hh (Hfv & H1u & H1d & H2u & H2d).
    destruct (series_lengths h f Hne Hh Hfv) as (Hhv & Hfc & Hband).
    pose proof Ht as Ht0. rewrite compose_timeline_nonempty in Ht0 by done.
    injection Ht0 as <-.
    cbn [allDates historicalValues forecastValues datasets].
    split; [done|]. split; [done|].
    split; repeat constructor; cbn [data]; auto.
  - intros He.
    assert (Hneg : js_length (dates h) - 1 < 0).
    { rewrite He. unfold js_length. simpl. lia. }
    split; [done|]. split; [by apply js_Array_fill_neg|].
    split; [by intros ->|].
    split; [by apply compose_timeline_empty|].
    split; [by apply panel_chart_empty|].
    split; [by apply tile_chart_empty|].
    split.
    + intros content cv data periodValue Hcv Hw Hf.
      unfold renderTileForecastChart. rewrite Hcv, Hw, Hf.
      by rewrite tile_chart_empty.
    + intros data st Hh Hf. unfold renderForecastChart.
      rewrite Hh, Hf. by rewrite panel_chart_empty.
Qed.

Lemma compose_needs_observation_witness :
  (sample_historical.(dates) ≠ []
   ∧ is_ok (compose_timeline sample_historical sample_forecast) = true)
  ∧ (dates (historical empty_result) = []
     ∧ compose_timeline (historical empty_result) (forecast empty_result)
       = Throw RangeError).
Proof.
  split.
  - assert (H1 : sample_historical.(dates) ≠ []) by (vm_compute; discriminate).
    split; [exact H1|].
    destruct (proj1 (compose_needs_observation sample_historical sample_forecast) H1)
      as (t & _ & _ & Ht & _).
    by rewrite Ht.
  - split; [reflexivity|].
    apply (proj2 (compose_needs_observation
                    (historical empty_result) (forecast empty_result))).
    reflexivity.
Defined.

(** ** Re-windowing *)

Lemma renderTileForecastChart_canvas {V} (content : Content V) cv (r : Result V)
    (periodValue : Z) :
  forecast_canvas content = Some cv →
  fst (renderTileForecastChart content r periodValue)
  = set_container content
      (ForecastCanvas
         {| _fullData := Some r;
            canvas_chart :=
              match tile_chart (tile_window (historical r) periodValue) (forecast r) with
              | Ok ch => Some ch
              | Throw _ => None
              end |}).
Proof.
  intros Hcv. unfold renderTileForecastChart. rewrite Hcv.
  by destruct (tile_chart _ _).
Qed.

Lemma tile_period_click_ready {V} (r : Result V) (content : Content V) (p : Z) :
  tile_ready r content →
  tile_period_click content p = renderTileForecastChart content r p.
Proof.
  intros [(cv & Hcv & Hfull) [Hh|Hh]]; unfold tile_period_click; rewrite Hh.
  - by rewrite Hcv, Hfull.
  - done.
Qed.

Lemma renderTileForecastChart_ready {V} (r : Result V) (content : Content V) (p : Z) :
  tile_ready r content →
  tile_ready r (fst (renderTileForecastChart content r p)).
Proof.
  intros [(cv & Hcv & Hfull) Hh].
  rewrite (renderTileForecastChart_canvas _ cv) by done.
  split; [|exact Hh]. eexists. split; [reflexivity|done].
Qed.

Lemma run_tile_clicks_ready {V} (r : Result V) (ps : list Z) (content : Content V) :
  tile_ready r content →
  tile_ready r (run_events (λ p c, tile_period_click c p) ps content).
Proof.
  revert content. induction ps as [|p ps IH]; intros content Hr; [done|].
  unfold run_events. simpl. apply IH.
  rewrite (tile_period_click_ready r) by done.
  by apply renderTileForecastChart_ready.
Qed.

Lemma handlePeriodChange_panel {V} (r : Result V) (st : AppState V) (p : Z) :
  dates (historical r) ≠ [] → panel_shows r st →
  ∃ pc, panel_chart (panel_window (historical r) p) (forecast r) = Ok pc
        ∧ handlePeriodChange {| btn_period := p; btn_tile := None |} st
          = ({| analysisResults := Some r;
                fullChartData := Some (historical r, forecast r);
                charts_forecast := Some {| chart := pc; destroyed := false |};
                tiles := tiles st |}, Ok ()).
Proof.
  intros Hne (Ha & Hfull & h0 & pc0 & Hne0 & Hpc0 & Hch).
  assert (Hw : dates (panel_window (historical r) p) ≠ []).
  { rewrite panel_window_tile_window. by apply tile_window_nonempty. }
  destruct (panel_chart_nonempty _ (forecast r) Hw) as (t & Ht & Hpc).
  destruct (panel_chart_nonempty _ (forecast r) Hne0) as (t0 & _ & Hpc0').
  rewrite Hpc0 in Hpc0'. injection Hpc0' as Hpc0'.
  eexists. split; [exact Hpc|].
  unfold handlePeriodChange. rewrite Ha, Hfull. cbn [btn_period btn_tile].
  rewrite Ht, Hch. cbn [chart destroyed].
  erewrite update_chart_six by (rewrite Hpc0'; reflexivity).
  reflexivity.
Qed.

Lemma runAnalysis_render_shows {V} (r : Result V) (st : AppState V) :
  dates (historical r) ≠ [] →
  panel_shows r (runAnalysis_render r st)
  ∧ tiles (runAnalysis_render r st) = tiles st.
Proof.
  intros Hne. unfold runAnalysis_render, renderForecastChart.
  destruct (panel_chart_nonempty _ (forecast r) Hne) as (t & _ & Hpc).
  rewrite Hpc. cbn. split; [|done].
  split; [done|]. split; [done|]. by eexists (historical r), _.
Qed.

Lemma handlePeriodChange_shows {V} (r : Result V) (st : AppState V) (p : Z) :
  dates (historical r) ≠ [] → panel_shows r st →
  panel_shows r (fst (handlePeriodChange {| btn_period := p; btn_tile := None |} st))
  ∧ tiles (fst (handlePeriodChange {| btn_period := p; btn_tile := None |} st))
    = tiles st.
Proof.
  intros Hne Hs.
  destruct (handlePeriodChange_panel r st p Hne Hs) as (pc & Hpc & ->).
  cbn [fst tiles]. split; [|done].
  split; [done|]. split; [done|].
  exists (panel_window (historical r) p), pc. split; [|done].
  rewrite panel_window_tile_window. by apply tile_window_nonempty.
Qed.

Lemma run_panel_clicks_shows {V} (r : Result V) (ps : list Z) (st : AppState V) :
  dates (historical r) ≠ [] → panel_shows r st →
  let final :=
    run_events handlePeriodChange
      ((λ q, {| btn_period := q; btn_tile := None |}) <$> ps) st in
  panel_shows r final ∧ tiles final = tiles st.
Proof.
  intros Hne. revert st. induction ps as [|q ps IH]; intros st Hs; [done|].
  destruct (handlePeriodChange_shows r st q Hne Hs) as [Hs' Ht'].
  destruct (IH _ Hs') as [Hs'' Ht'']. cbn zeta in *.
  unfold run_events in *. simpl. split; [done|]. exact (eq_trans Ht'' Ht').
Qed.

Lemma run_events_snoc {S E} (step : E → S → S * exc unit) (es : list E) (e : E)
    (s : S) :
  run_events step (es ++ [e]) s = fst (step e (run_events step es s)).
Proof. unfold run_events. by rewrite foldl_snoc. Qed.

Lemma run_tile_clicks_fields {V} (r : Result V) (ps : list Z) (content : Content V) :
  tile_ready r content →
  let final := run_events (λ p c, tile_period_click c p) ps content in
  period_onclick final = period_onclick content
  ∧ diff_chart final = diff_chart content.
Proof.
  revert content. induction ps as [|q ps IH]; intros content Hr; [done|].
  cbn zeta. unfold run_events. simpl.
  rewrite (tile_period_click_ready r) by done.
  pose proof (renderTileForecastChart_ready r content q Hr) as Hr'.
  destruct (IH _ Hr') as [H1 H2]. cbn zeta in *. unfold run_events in *.
  rewrite H1, H2. destruct Hr as [(cv & Hcv & _) _].
  by rewrite (renderTileForecastChart_canvas _ cv).
Qed.

(** C9.  Re-windowing never compounds.  While a tile shows [r] (after
    [loadPrecomputedModel] or [runTileAnalysis] rendered it), any run of
    period clicks ending with [p] leaves the tile exactly as one rendering
    of [r] with [p] does: the canvas still keeps [r] in full and shows the
    chart of the [p]-window of [r].  The same holds for the analysis panel
    after [runAnalysis]: the stored [fullChartData] stays the full history
    and the chart is that of the [p]-window of it. *)
Theorem rewindow_never_compounds {V} (r : Result V) (ps : list Z) (p : Z) :
  dates (historical r) ≠ [] →
  (∀ content, tile_ready r content →
     let final := run_events (λ q c, tile_period_click c q) (ps ++ [p]) content in
     final = fst (renderTileForecastChart content r p)
     ∧ tile_ready r final
     ∧ ∃ ch, tile_chart (tile_window (historical r) p) (forecast r) = Ok ch
             ∧ forecast_canvas final
               = Some {| _fullData := Some r; canvas_chart := Some ch |})
  ∧ (∀ content, is_Some (forecast_canvas content) →
       tile_ready r (runTileAnalysis_render content r))
  ∧ (∀ st i content body,
       tiles st !! i = Some content → is_Some (chartContainer content) →
       truthy (pre_error body) = None → pre_result body = Some r →
       ∃ loaded, tiles (loadPrecomputedModel i (FetchJson body) st) !! i = Some loaded
                 ∧ tile_ready r loaded)
  ∧ (∀ st,
       let shown := runAnalysis_render r st in
       let final :=
         run_events handlePeriodChange
           ((λ q, {| btn_period := q; btn_tile := None |}) <$> (ps ++ [p])) shown in
       final = fst (handlePeriodChange {| btn_period := p; btn_tile := None |} shown)
       ∧ fullChartData final = Some (historical r, forecast r)
       ∧ ∃ pc, panel_chart (panel_window (historical r) p) (forecast r) = Ok pc
               ∧ charts_forecast final = Some {| chart := pc; destroyed := false |}).
Proof.
  intros Hne.
  assert (Hw : ∀ q, dates (tile_window (historical r) q) ≠ []).
  { intros q. by apply tile_window_nonempty. }
  split; [|split; [|split]].
  - intros content Hr final. subst final.
    rewrite run_events_snoc.
    pose proof (run_tile_clicks_ready r ps content Hr) as Hr'.
    destruct (run_tile_clicks_fields r ps content Hr) as [Hp Hd]. cbn zeta in *.
    rewrite (tile_period_click_ready r) by done.
    destruct Hr as [(cv & Hcv & Hfull) Hh].
    pose proof Hr' as [(cv' & Hcv' & Hfull') Hh'].
    destruct (tile_chart_nonempty _ (forecast r) (Hw p)) as (t & _ & Htc).
    rewrite (renderTileForecastChart_canvas _ cv') by done.
    rewrite (renderTileForecastChart_canvas _ cv) by done.
    rewrite Htc. unfold set_container. rewrite Hp, Hd.
    split; [done|]. split.
    + split; [by eexists|]. cbn [period_onclick]. by rewrite <- Hp.
    + by eexists.
  - intros content [cv Hcv]. unfold runTileAnalysis_render.
    destruct (tile_chart_nonempty _ (forecast r) (Hw 12)) as (t & _ & Htc).
    unfold renderTileForecastChart. rewrite Hcv, Htc.
    destruct (comparison r); (split; [by eexists|by right]).
  - intros st i content body Hi [k Hk] Herr Hres.
    unfold loadPrecomputedModel. rewrite Hi, Hk, Herr, Hres.
    destruct (tile_chart_nonempty _ (forecast r) (Hw 12)) as (t & _ & Htc).
    unfold renderTileForecastChart. cbn [forecast_canvas set_container chartContainer].
    rewrite Htc. cbn [tiles]. rewrite lookup_insert_eq.
    eexists. split; [reflexivity|].
    destruct (comparison r); (split; [by eexists|by left]).
  - intros st shown final. subst final.
    destruct (runAnalysis_render_shows r st Hne) as [Hs _]. fold shown in Hs.
    replace ((λ q, {| btn_period := q; btn_tile := None |}) <$> (ps ++ [p]))
      with (((λ q, {| btn_period := q; btn_tile := None |}) <$> ps)
              ++ [{| btn_period := p; btn_tile := None |}])
      by (by rewrite fmap_app).
    rewrite run_events_snoc.
    destruct (run_panel_clicks_shows r ps shown Hne Hs) as [Hs' Ht'].
    cbn zeta in *.
    destruct (handlePeriodChange_panel r _ p Hne Hs') as (pc & Hpc & ->).
    destruct (handlePeriodChange_panel r _ p Hne Hs) as (pc' & Hpc' & ->).
    assert (pc' = pc) by congruence. subst pc'.
    cbn [fst fullChartData charts_forecast]. rewrite Ht'.
    split; [done|]. split; [done|]. by exists pc.
Qed.

Lemma rewindow_never_compounds_witness :
  dates (historical sample_result) ≠ []
  ∧ ∃ pc, panel_chart (panel_window sample_historical 3) sample_forecast = Ok pc
          ∧ charts_forecast
              (run_events handlePeriodChange
                 ((λ q, {| btn_period := q; btn_tile := None |}) <$> ([24; 60; 0] ++ [3]))
                 (runAnalysis_render sample_result initial_state))
            = Some {| chart := pc; destroyed := false |}.
Proof.
  assert (H1 : dates (historical sample_result) ≠ []) by (vm_compute; discriminate).
  split; [exact H1|].
  destruct (rewindow_never_compounds sample_result [24; 60; 0] 3 H1)
    as (_ & _ & _ & Hpanel).
  destruct (Hpanel initial_state) as (_ & _ & pc & Hpc & Hch).
  exists pc. split; [exact Hpc|exact Hch].
Defined.

Example tile_clicks_sample :
  forecast_canvas
    (run_events (λ q c, tile_period_click c q) [24; 0; 3]
       (runTileAnalysis_render fresh_tile sample_result))
  = Some {| _fullData := Some sample_result;
            canvas_chart :=
              Some {| labels := ["2024-06"; "2024-07"; "2024-08"; "2024-09"; "2024-10"]%string;
                      datasets :=
                        [ {| label := "Historical";
                             data := [Num 106; Num 107; Num 108; Null; Null]; fill := None |};
                          {| label := "Forecast";
                             data := [Null; Null; Num 108; Num 110; Num 111]; fill := None |};
                          {| label := "+1σ RMSE";
                             data := [Null; Null; Null; Num 112; Num 113]; fill := Some 1 |};
                          {| label := "-1σ RMSE";
                             data := [Null; Null; Null; Num 108; Num 109]; fill := None |} ] |} |}.
Proof. reflexivity. Qed.

(** ** Failure isolation *)

Section CalendarProperties.
Variable toLocaleDateString : string → string.
Variable attach : Tile → exc unit.

Lemma render_indicator_nodes (children : list Node) (entry : option Indicator) :
  render_indicator attach children entry
  = Ok (children ++ entry_nodes attach entry).
Proof.
  unfold render_indicator, entry_nodes, tile_of.
  destruct entry as [indicator|]; cbn; [|by rewrite app_nil_r].
  destruct (truthy (series_id indicator)) as [sid|]; cbn;
    [|by rewrite app_nil_r].
  destruct (attach (make_tile indicator sid)) as [[]|e]; cbn;
    [done|by rewrite app_nil_r].
Qed.

Lemma for_of_render_indicator (children : list Node)
    (indicators : list (option Indicator)) :
  for_of (render_indicator attach) children indicators
  = Ok (children ++ (indicators ≫= entry_nodes attach)).
Proof.
  revert children.
  induction indicators as [|entry indicators IH]; intros children.
  - cbn. by rewrite app_nil_r.
  - cbn [for_of]. rewrite render_indicator_nodes. cbn [mbind exc_bind].
    rewrite IH, bind_cons. by rewrite <- (assoc_L (++)).
Qed.

Lemma renderCalendar_from (children : list Node)
    (calendar : list (string * list (option Indicator))) :
  for_of
    (λ children entry,
       let '(dateKey, indicators) := entry in
       for_of (render_indicator attach)
         (children ++ [DateHeader (formatDateKey toLocaleDateString dateKey)])
         indicators)
    children calendar
  = Ok (children ++ (calendar ≫= day_nodes toLocaleDateString attach)).
Proof.
  revert children.
  induction calendar as [|[dateKey indicators] calendar IH]; intros children.
  - cbn. by rewrite app_nil_r.
  - cbn [for_of]. rewrite for_of_render_indicator. cbn [mbind exc_bind].
    rewrite IH, bind_cons. unfold day_nodes at 2. cbn [fst snd].
    rewrite <- !(assoc_L (++)). reflexivity.
Qed.

Lemma renderCalendar_nodes (calendar : list (string * list (option Indicator))) :
  renderCalendar toLocaleDateString attach calendar
  = Ok (calendar ≫= day_nodes toLocaleDateString attach).
Proof. unfold renderCalendar. by rewrite renderCalendar_from. Qed.
End CalendarProperties.




Example sample_calendar_rendered :
  renderCalendar (λ k, k) sample_attach sample_calendar
  = Ok [ DateHeader "2024-09-06";
         Details {| tile_id := "tile-UNRATE"; tile_type := "fred";
                    tile_indicator :=
                      {| series_id := Some "UNRATE"; type := None; ticker := None |} |};
         Details {| tile_id := "tile-PERMIT"; tile_type := "fred";
                    tile_indicator :=
                      {| series_id := Some "PERMIT"; type := Some "fred";
                         ticker := None |} |} ]%string.
Proof. reflexivity. Qed.


(** ** Analyze requests *)

Example tile_request_arima :
  runTileAnalysis_request "UNRATE" "ARIMA" sample_tile_form
  = <["order" := JArr [Int 2; Int 1; Int 1]]>
      (<["n_test" := JNum (Int 12)]>
        (<["h_future" := JNum (Int 6)]>
          (<["series_id" := JStr "UNRATE"]>
            (<["model_type" := JStr "ARIMA"]> ∅)))).
Proof. by vm_compute. Qed.

(** C8 as stated fails for the tile: with Moving Average selected,
    [runTileAnalysis] posts a body without [windows]. *)
Lemma tile_request_lacks_windows :
  ¬ has_model_config "MovingAverage"
      (runTileAnalysis_request "UNRATE" "MovingAverage" sample_tile_form).
Proof.
  intros [Hv _]. unfold has_variant_field in Hv.
  cbn in Hv. destruct Hv as [ws Hws]. vm_compute in Hws. discriminate.
Qed.

(** C8, amended.  The analysis panel's request ([runAnalysis] with
    [getModelParams]) carries [order: [p, d, q]] for ARIMA, [windows] for
    Moving Average and [simulations] for Monte Carlo, read from the form,
    and always [n_test] and [h_future].  The tile's request
    ([runTileAnalysis]) always carries [n_test] and [h_future], carries a
    three-element [order] for ARIMA, and never carries [windows] or
    [simulations].  The card client ([fetchAnalysis]) always carries
    [n_test] and [h_future] and sends [p], [d], [q], [ma_windows] and
    [mc_sims] in place of [order], [windows] and [simulations]. *)
Theorem analyze_request_shape (sid : string) :
  (∀ form,
     let a := runAnalysis_request sid "ARIMA" form in
     let m := runAnalysis_request sid "MovingAverage" form in
     let c := runAnalysis_request sid "MonteCarlo" form in
     has_model_config "ARIMA" a
     ∧ has_model_config "MovingAverage" m
     ∧ has_model_config "MonteCarlo" c
     ∧ a !! "order" = Some (JArr [paramP form; paramD form; paramQ form])
     ∧ m !! "windows" = Some (JArr (maWindows form))
     ∧ c !! "simulations" = Some (JNum (mcSims form))
     ∧ Forall (λ body, body !! "n_test" = Some (JNum (nTest form))
                       ∧ body !! "h_future" = Some (JNum (hFuture form)))
              [a; m; c])
  ∧ (∀ modelType form,
       let body := runTileAnalysis_request sid modelType form in
       has_shared_fields body
       ∧ body !! "windows" = None
       ∧ body !! "simulations" = None
       ∧ (body !! "order" = None ↔ modelType ≠ "ARIMA"%string))
  ∧ (∀ form, has_model_config "ARIMA" (runTileAnalysis_request sid "ARIMA" form))
  ∧ (∀ apiKey p d q w s nTest hFuture,
       let first := fetchAnalysis_payload apiKey sid loadIndicatorAnalysis_params in
       let a := fetchAnalysis_payload apiKey sid
                  (updateAnalysis_params "ARIMA" (arima_inputs p d q nTest hFuture)) in
       let m := fetchAnalysis_payload apiKey sid
                  (updateAnalysis_params "MA" (ma_inputs w nTest hFuture)) in
       let c := fetchAnalysis_payload apiKey sid
                  (updateAnalysis_params "MONTE" (monte_inputs s nTest hFuture)) in
       Forall (λ body, has_shared_fields body
                       ∧ body !! "order" = None
                       ∧ body !! "windows" = None
                       ∧ body !! "simulations" = None)
              [first; a; m; c]
       ∧ (first !! "p", first !! "d", first !! "q")
         = (Some (JNum (Int 1)), Some (JNum (Int 1)), Some (JNum (Int 1)))
       ∧ (a !! "p", a !! "d", a !! "q") = (Some (JNum p), Some (JNum d), Some (JNum q))
       ∧ m !! "ma_windows" = Some (JArr [w])
       ∧ c !! "mc_sims" = Some (JNum s)).
Proof.
  split; [|split; [|split]].
  - intros form a m c. subst a m c.
    unfold has_model_config, has_variant_field, has_shared_fields.
    repeat split; try (repeat constructor); try (by vm_compute; eauto).
  - intros modelType form body. subst body.
    unfold has_shared_fields, runTileAnalysis_request.
    destruct (decide (modelType = "ARIMA"%string)) as [->|Hne].
    + repeat split; by vm_compute; eauto.
    + repeat split; by vm_compute; eauto.
  - intros form. unfold has_model_config, has_variant_field, has_shared_fields.
    repeat split; by vm_compute; eauto.
  - intros apiKey p d q w s nTest hFuture first a m c. subst first a m c.
    unfold has_shared_fields.
    repeat split; try (repeat constructor); try (by vm_compute; eauto).
Qed.

(** The tile branch of [handlePeriodChange] meets a chart of four datasets:
    the assignment to [datasets[4]] is a TypeError. *)
Example handlePeriodChange_on_tile :
  snd (handlePeriodChange {| btn_period := 3; btn_tile := Some 0%nat |}
         (loadPrecomputedModel 0
            (FetchJson {| pre_error := None; pre_result := Some sample_result;
                          best_model := Some "ARIMA"%string |})
            {| analysisResults := None; fullChartData := None;
               charts_forecast := None; tiles := {[ 0%nat := fresh_tile ]} |}))
  = Throw TypeError.
Proof. by vm_compute. Qed.

(** * Further properties of the client *)

(** ** Windows *)

(** X1.  Windows compose as a minimum: windowing the slice of the last [a]
    observations to the last [b] gives the slice of the last [min a b]; in
    particular a wider window applied to a slice cannot bring observations
    back. *)
Theorem window_of_window {V} (h : Historical V) (a b : Z) :
  0 < a → 0 < b →
  tile_window (tile_window h a) b = tile_window h (Z.min a b)
  ∧ panel_window (panel_window h a) b = panel_window h (Z.min a b).
Proof.
  intros Ha Hb.
  assert (Htile : tile_window (tile_window h a) b = tile_window h (Z.min a b)).
  { rewrite (tile_window_positive h a) by done.
    rewrite (tile_window_positive h (Z.min a b)) by lia.
    rewrite tile_window_positive by done. cbn [dates values].
    rewrite !drop_drop. unfold js_length. rewrite length_drop.
    f_equal; f_equal; lia. }
  split; [done|]. by rewrite !panel_window_tile_window.
Qed.

Lemma window_of_window_witness :
  0 < 5 ∧ 0 < 3
  ∧ tile_window (tile_window sample_historical 5) 3 = tile_window sample_historical 3
  ∧ tile_window (tile_window sample_historical 3) 5 = tile_window sample_historical 3.
Proof.
  split; [lia|]. split; [lia|]. split.
  - apply (window_of_window sample_historical 5 3); lia.
  - apply (window_of_window sample_historical 3 5); lia.
Defined.

Lemma last_drop_lt {A} (l : list A) (k : nat) :
  (k < length l)%nat → last (drop k l) = last l.
Proof.
  intros Hk. rewrite !last_lookup, lookup_drop, length_drop.
  f_equal. lia.
Qed.

(** X2.  Whatever period is selected, the window of a non-empty aligned
    history ends with the latest observation, so the forecast line always
    starts from the most recent value of the full history. *)
Theorem window_keeps_latest {V} (h : Historical V) (f : Forecast V) (periodValue : Z) :
  dates h ≠ [] → aligned_historical h →
  last (dates (tile_window h periodValue)) = last (dates h)
  ∧ last (values (tile_window h periodValue)) = last (values h)
  ∧ ∃ t latest,
      compose_timeline (tile_window h periodValue) f = Ok t
      ∧ last (values h) = Some latest
      ∧ forecastValues t !! (length (dates (tile_window h periodValue)) - 1)%nat
        = Some (Num latest).
Proof.
  intros Hne Hal. unfold aligned_historical in Hal.
  assert (Hpos : (0 < length (dates h))%nat).
  { destruct (dates h); [done|]. simpl. lia. }
  assert (Hd : last (dates (tile_window h periodValue)) = last (dates h)
               ∧ last (values (tile_window h periodValue)) = last (values h)).
  { unfold tile_window. destruct (Z.ltb_spec 0 periodValue) as [Hp|Hp]; [|done].
    cbv zeta. cbn [dates values]. rewrite !js_slice_nonneg by lia.
    unfold js_length. split; apply last_drop_lt; lia. }
  destruct Hd as [Hd Hv]. split; [done|]. split; [done|].
  pose proof (tile_window_nonempty h periodValue Hne) as Hwne.
  destruct (last (values h)) as [latest|] eqn:Hlast.
  2:{ apply last_None in Hlast. rewrite Hlast in Hal. simpl in Hal. lia. }
  eexists _, latest. split; [by apply compose_timeline_nonempty|].
  split; [done|]. cbn [forecastValues]. rewrite Hv.
  rewrite lookup_app_r by (rewrite length_replicate; lia).
  rewrite length_replicate, Nat.sub_diag. done.
Qed.

Lemma window_keeps_latest_witness :
  dates sample_historical ≠ [] ∧ aligned_historical sample_historical
  ∧ last (values (tile_window sample_historical 3)) = Some 108.
Proof.
  assert (H1 : dates sample_historical ≠ []) by (vm_compute; discriminate).
  assert (H2 : aligned_historical sample_historical) by reflexivity.
  split; [exact H1|]. split; [exact H2|].
  destruct (window_keeps_latest sample_historical sample_forecast 3 H1 H2)
    as (_ & Hv & _).
  rewrite Hv. reflexivity.
Defined.

(** ** Composition without validation *)

(** X3.  Composition never checks that its input arrays agree in length:
    with at least one date it always returns its arrays, and each series is
    as long as the date axis exactly when the corresponding input array is
    as long as its dates. *)
Theorem compose_never_validates {V} (h : Historical V) (f : Forecast V) :
  dates h ≠ [] →
  ∃ t, compose_timeline h f = Ok t
       ∧ (length (historicalValues t) = length (allDates t)
          ↔ length (values h) = length (dates h))
       ∧ (length (forecastValues t) = length (allDates t)
          ↔ length (forecast_values f) = length (forecast_dates f))
       ∧ (∀ sigma band, band_series h sigma = Ok band →
            (length band = length (allDates t)
             ↔ length sigma = length (forecast_dates f)))
       ∧ (values h = [] →
          forecastValues t !! (length (dates h) - 1)%nat = Some Undefined).
Proof.
  intros Hne. eexists. split; [by apply compose_timeline_nonempty|].
  assert (Hpos : (0 < length (dates h))%nat).
  { destruct (dates h); [done|]. simpl. lia. }
  cbn [allDates historicalValues forecastValues].
  rewrite !length_app, !length_fmap, !length_replicate. cbn [length].
  split; [split; lia|]. split; [split; lia|]. split.
  - intros sigma band. rewrite band_series_ok. intros [= <-].
    rewrite !length_app, !length_fmap, !length_replicate. split; lia.
  - intros ->. rewrite lookup_app_r by (rewrite length_replicate; lia).
    by rewrite length_replicate, Nat.sub_diag.
Qed.

Lemma compose_never_validates_witness :
  dates {| dates := ["2024-01"; "2024-02"]%string; values := [7] |} ≠ []
  ∧ ∃ t, compose_timeline {| dates := ["2024-01"; "2024-02"]%string; values := [7] |}
           sample_forecast = Ok t
         ∧ length (historicalValues t) ≠ length (allDates t).
Proof.
  assert (H1 : dates {| dates := ["2024-01"; "2024-02"]%string; values := [7] |} ≠ [])
    by (vm_compute; discriminate).
  split; [exact H1|].
  destruct (compose_never_validates
              {| dates := ["2024-01"; "2024-02"]%string; values := [7] |}
              sample_forecast H1) as (t & Ht & Hh & _).
  exists t. split; [exact Ht|]. intros Heq. apply Hh in Heq. vm_compute in Heq. lia.
Defined.

(** ** Period clicks on the panel *)

Lemma handlePeriodChange_rebuilds {V} (st : AppState V) (a : Result V)
    (h h0 : Historical V) (f f0 : Forecast V) (c0 : Chart V) (b : bool) (p : Z) :
  dates h ≠ [] → dates h0 ≠ [] → panel_chart h0 f0 = Ok c0 →
  analysisResults st = Some a → fullChartData st = Some (h, f) →
  charts_forecast st = Some {| chart := c0; destroyed := b |} →
  ∃ pc, panel_chart (panel_window h p) f = Ok pc
        ∧ handlePeriodChange {| btn_period := p; btn_tile := None |} st
          = ({| analysisResults := analysisResults st;
                fullChartData := fullChartData st;
                charts_forecast := Some {| chart := pc; destroyed := b |};
                tiles := tiles st |}, Ok ()).
Proof.
  intros Hne Hne0 Hc0 Ha Hfull Hch.
  assert (Hw : dates (panel_window h p) ≠ []).
  { rewrite panel_window_tile_window. by apply tile_window_nonempty. }
  destruct (panel_chart_nonempty _ f Hw) as (t & Ht & Hpc).
  destruct (panel_chart_nonempty _ f0 Hne0) as (t0 & _ & Hc0').
  rewrite Hc0 in Hc0'. injection Hc0' as Hc0'.
  eexists. split; [exact Hpc|].
  unfold handlePeriodChange. rewrite Ha, Hfull. cbn [btn_period btn_tile].
  rewrite Ht, Hch. cbn [chart destroyed].
  erewrite update_chart_six by (rewrite Hc0'; reflexivity).
  reflexivity.
Qed.




(** X5.  The panel and the tiles share [state.fullChartData].  After the
    panel analysed [r1], a precomputed model [r2] that loads into any tile
    replaces the stored data, and the next click on a panel period button
    redraws the panel chart from the window of [r2], not of [r1]. *)
Theorem tile_load_redirects_panel {V} (r1 r2 : Result V) (st : AppState V)
    (i : nat) (content : Content V) (body : Precomputed V) (p : Z) :
  dates (historical r1) ≠ [] → dates (historical r2) ≠ [] →
  tiles st !! i = Some content → is_Some (chartContainer content) →
  truthy (pre_error body) = None → pre_result body = Some r2 →
  let analysed := runAnalysis_render r1 st in
  let loaded := loadPrecomputedModel i (FetchJson body) analysed in
  let clicked := fst (handlePeriodChange {| btn_period := p; btn_tile := None |} loaded) in
  fullChartData loaded = Some (historical r2, forecast r2)
  ∧ ∃ pc, panel_chart (panel_window (historical r2) p) (forecast r2) = Ok pc
          ∧ charts_forecast clicked = Some {| chart := pc; destroyed := false |}.
Proof.
  intros Hne1 Hne2 Hi [k Hk] Herr Hres analysed loaded clicked.
  destruct (runAnalysis_render_shows r1 st Hne1)
    as [(Ha & Hfull & h0 & pc0 & Hne0 & Hpc0 & Hch) Htiles].
  fold analysed in Ha, Hfull, Hch, Htiles.
  assert (Hloaded : analysisResults loaded = Some r2
                    ∧ fullChartData loaded = Some (historical r2, forecast r2)
                    ∧ charts_forecast loaded = charts_forecast analysed).
  { subst loaded. unfold loadPrecomputedModel. rewrite Htiles, Hi, Hk, Herr, Hres.
    destruct (tile_chart_nonempty _ (forecast r2)
                (tile_window_nonempty (historical r2) 12 Hne2)) as (t & _ & Htc).
    unfold renderTileForecastChart.
    cbn [forecast_canvas set_container chartContainer]. rewrite Htc. done. }
  destruct Hloaded as (Ha2 & Hf2 & Hc2). split; [done|].
  rewrite Hch in Hc2.
  destruct (handlePeriodChange_rebuilds loaded r2 (historical r2) h0 (forecast r2)
              (forecast r1) pc0 false p Hne2 Hne0 Hpc0 Ha2 Hf2 Hc2)
    as (pc & Hpc & Hstep).
  exists pc. split; [done|]. subst clicked. by rewrite Hstep.
Qed.

Lemma tile_load_redirects_panel_witness :
  ∃ pc, panel_chart (panel_window sample_historical 3) sample_forecast = Ok pc
        ∧ charts_forecast
            (fst (handlePeriodChange {| btn_period := 3; btn_tile := None |}
                    (loadPrecomputedModel 0
                       (FetchJson {| pre_error := None; pre_result := Some sample_result;
                                     best_model := None |})
                       (runAnalysis_render
                          {| historical := {| dates := ["2020-01"]%string; values := [1] |};
                             forecast := sample_forecast;
                             comparison := None; opinion := None |}
                          {| analysisResults := None; fullChartData := None;
                             charts_forecast := None;
                             tiles := {[ 0%nat := fresh_tile ]} |}))))
          = Some {| chart := pc; destroyed := false |}.
Proof.
  eapply (tile_load_redirects_panel
            {| historical := {| dates := ["2020-01"]%string; values := [1] |};
               forecast := sample_forecast; comparison := None; opinion := None |}
            sample_result _ 0%nat fresh_tile).
  - vm_compute. discriminate.
  - vm_compute. discriminate.
  - reflexivity.
  - by eexists.
  - reflexivity.
  - reflexivity.
Defined.

(** X6.  The six assignments of [handlePeriodChange] succeed exactly on a
    chart with at least six datasets.  On a chart of four datasets, such as
    a tile chart, they end in a TypeError after the first four were made:
    the third dataset then carries the [sigma_2_up] band and the fourth the
    [sigma_1_up] band, under the labels they had. *)
Theorem update_chart_needs_six {V} (h : Historical V) (f : Forecast V)
    (t : Timeline V) (c : Chart V) :
  (snd (update_chart h f t c) = Ok () ↔ (6 ≤ length (datasets c))%nat)
  ∧ (∀ d0 d1 d2 d3, datasets c = [d0; d1; d2; d3] →
       update_chart h f t c
       = ({| labels := allDates t;
             datasets :=
               [ {| label := label d0; data := historicalValues t; fill := fill d0 |};
                 {| label := label d1; data := forecastValues t; fill := fill d1 |};
                 {| label := label d2;
                    data := replicate (length (dates h)) Null ++ (Num <$> sigma_2_up f);
                    fill := fill d2 |};
                 {| label := label d3;
                    data := replicate (length (dates h)) Null ++ (Num <$> sigma_1_up f);
                    fill := fill d3 |} ] |},
          Throw TypeError)).
Proof.
  unfold update_chart. rewrite !band_series_ok. split.
  - destruct (datasets c) as [|d0 [|d1 [|d2 [|d3 [|d4 [|d5 rest]]]]]];
      cbn; split; intros H; try done; lia.
  - intros d0 d1 d2 d3 ->. reflexivity.
Qed.

Lemma update_chart_needs_six_witness :
  ∃ tc t, tile_chart sample_historical sample_forecast = Ok tc
          ∧ compose_timeline (tile_window sample_historical 3) sample_forecast = Ok t
          ∧ snd (update_chart (tile_window sample_historical 3) sample_forecast t tc)
            = Throw TypeError.
Proof.
  eexists _, _. split; [reflexivity|]. split; [reflexivity|].
  erewrite (proj2 (update_chart_needs_six _ _ _ _)); reflexivity.
Defined.

(** ** The rendered calendar *)

Lemma entry_nodes_views (attach : Tile → exc unit) (indicators : list (option Indicator)) :
  omap node_header (indicators ≫= entry_nodes attach) = []
  ∧ omap node_tile (indicators ≫= entry_nodes attach)
    = omap (λ entry, t ← tile_of entry; if is_ok (attach t) then Some t else None)
        indicators.
Proof.
  induction indicators as [|entry indicators [IH1 IH2]]; [done|].
  rewrite bind_cons, !omap_app, IH1, IH2. cbn [omap list_omap].
  unfold entry_nodes.
  destruct (tile_of entry) as [t|]; cbn; [|done].
  by destruct (is_ok (attach t)).
Qed.

(** X7.  [renderCalendar] keeps the calendar's order and drops no day: the
    date headers are those of the calendar's days, one each and in order,
    also for a day none of whose entries is rendered; the tiles are those
    of the entries that are neither skipped nor failing, in calendar order
    and without merging repeated series. *)
Theorem renderCalendar_order
    (toLocaleDateString : string → string) (attach : Tile → exc unit)
    (calendar : list (string * list (option Indicator))) :
  ∃ nodes,
    renderCalendar toLocaleDateString attach calendar = Ok nodes
    ∧ omap node_header nodes
      = (λ day, formatDateKey toLocaleDateString day.1) <$> calendar
    ∧ omap node_tile nodes
      = omap (λ entry, t ← tile_of entry; if is_ok (attach t) then Some t else None)
          (calendar ≫= snd).
Proof.
  eexists. split; [apply renderCalendar_nodes|].
  induction calendar as [|[dateKey indicators] calendar [IH1 IH2]]; [done|].
  rewrite !bind_cons, !omap_app, IH1, IH2. unfold day_nodes.
  cbn [fst snd omap list_omap node_header node_tile fmap list_fmap].
  destruct (entry_nodes_views attach indicators) as [-> ->]. done.
Qed.

Example calendar_day_without_tiles :
  renderCalendar (λ k, k) sample_attach
    [ ("TBD", [None; Some {| series_id := Some ""; type := None; ticker := None |}]);
      ("9999-12-31", []) ]%string
  = Ok [DateHeader "TBD"; DateHeader "Upcoming / TBD"]%string.
Proof. reflexivity. Qed.

(** ** Tile identifiers *)

Lemma is_alnum_underscore : is_alnum "_"%char = false.
Proof. reflexivity. Qed.

(** X8.  The identifier part of a tile id consists of letters, digits and
    underscores only, is as long as the series id it comes from, and is not
    changed by sanitising again; but it does not identify the series: two
    different series ids can give the same tile id. *)
Theorem sanitize_identifier (s : string) :
  identifier_chars (sanitize s) = true
  ∧ String.length (sanitize s) = String.length s
  ∧ sanitize (sanitize s) = sanitize s
  ∧ ∃ a b indicator,
      a ≠ b ∧ tile_id (make_tile indicator a) = tile_id (make_tile indicator b).
Proof.
  split; [|split; [|split]].
  - induction s as [|c s IH]; [done|]. cbn [sanitize identifier_chars].
    rewrite IH, andb_true_r. destruct (is_alnum c) eqn:Hc.
    + by rewrite Hc.
    + by rewrite is_alnum_underscore, bool_decide_eq_true_2.
  - induction s as [|c s IH]; [done|]. cbn. by rewrite IH.
  - induction s as [|c s IH]; [done|]. cbn [sanitize]. rewrite IH.
    destruct (is_alnum c) eqn:Hc.
    + by rewrite Hc.
    + by rewrite is_alnum_underscore.
  - exists "A.B"%string, "A_B"%string,
      {| series_id := None; type := None; ticker := None |}.
    split; [done|reflexivity].
Qed.

(** ** Values a tile can request *)

Lemma or_default_nonzero (n : jsnum) (d : Z) : d ≠ 0 → or_default n d ≠ 0.
Proof. intros Hd. by destruct n as [|[|z|z]]. Qed.

Lemma runTileAnalysis_request_fields (sid modelType : string) (form : TileForm) :
  let body := runTileAnalysis_request sid modelType form in
  body !! "n_test" = Some (JNum (Int (or_default (n_test form) 12)))
  ∧ body !! "h_future" = Some (JNum (Int (or_default (h_future form) 6)))
  ∧ (modelType = "ARIMA"%string →
     body !! "order"
     = Some (JArr [Int (or_default (order_p form) 1);
                   Int (or_default (order_d form) 1);
                   Int (or_default (order_q form) 1)])).
Proof.
  cbn zeta. unfold runTileAnalysis_request. cbv zeta.
  generalize (or_default (order_p form) 1) (or_default (order_d form) 1)
    (or_default (order_q form) 1) (or_default (n_test form) 12)
    (or_default (h_future form) 6).
  intros p d q n hf.
  destruct (decide (modelType = "ARIMA"%string)) as [->|Hne].
  - repeat split; by vm_compute.
  - repeat split; by vm_compute.
Qed.

(** X9.  A tile can never request a zero: its test length, its horizon and
    every component of its ARIMA order are integers different from 0 (an
    empty, unparsable or zero input is replaced by the default), so an
    input of [d = 0] is sent as [d = 1]; any other integer, also a negative
    one, is sent as typed. *)
Theorem tile_request_never_zero (sid modelType : string) (form : TileForm) :
  let body := runTileAnalysis_request sid modelType form in
  (∃ n hf, body !! "n_test" = Some (JNum (Int n))
           ∧ body !! "h_future" = Some (JNum (Int hf)) ∧ n ≠ 0 ∧ hf ≠ 0)
  ∧ (modelType = "ARIMA"%string →
     ∃ p d q, body !! "order" = Some (JArr [Int p; Int d; Int q])
              ∧ p ≠ 0 ∧ d ≠ 0 ∧ q ≠ 0
              ∧ (order_d form = Int 0 → d = 1)
              ∧ (∀ z, z ≠ 0 → order_d form = Int z → d = z)).
Proof.
  destruct (runTileAnalysis_request_fields sid modelType form) as (Hn & Hh & Ho).
  cbn zeta in *. split.
  - eexists _, _. split; [exact Hn|]. split; [exact Hh|].
    split; by apply or_default_nonzero.
  - intros Hm. eexists _, _, _. split; [by apply Ho|].
    repeat split; try by apply or_default_nonzero.
    + by intros ->.
    + intros z Hz ->. by destruct z.
Qed.

Lemma tile_request_never_zero_witness :
  runTileAnalysis_request "UNRATE" "ARIMA" sample_tile_form !! "order"
  = Some (JArr [Int 2; Int 1; Int 1]).
Proof.
  destruct (tile_request_never_zero "UNRATE" "ARIMA" sample_tile_form)
    as [_ Ho].
  destruct (Ho eq_refl) as (p & d & q & Hbody & _ & _ & _ & Hd & _).
  rewrite Hbody. by vm_compute in Hbody.
Defined.

(** X10.  For a model type [getModelParams] has no case for, the panel
    posts the series id and the model type and nothing else, without the
    test length and the horizon; the tile's request carries both for every
    model type. *)
Theorem unknown_model_request (sid modelType : string) (form : PanelForm)
    (tile_form : TileForm) :
  modelType ≠ "ARIMA"%string → modelType ≠ "MovingAverage"%string →
  modelType ≠ "MonteCarlo"%string →
  getModelParams modelType form = None
  ∧ runAnalysis_request sid modelType form
    = <["series_id" := JStr sid]> (<["model_type" := JStr modelType]> ∅)
  ∧ ¬ has_shared_fields (runAnalysis_request sid modelType form)
  ∧ has_shared_fields (runTileAnalysis_request sid modelType tile_form).
Proof.
  intros H1 H2 H3.
  assert (Hnone : getModelParams modelType form = None).
  { unfold getModelParams. by repeat case_decide. }
  assert (Hbody : runAnalysis_request sid modelType form
                  = <["series_id" := JStr sid]> (<["model_type" := JStr modelType]> ∅)).
  { unfold runAnalysis_request, analyze_body. rewrite Hnone. cbn [default].
    by rewrite (left_id_L ∅ (∪)). }
  split; [done|]. split; [done|]. split.
  - rewrite Hbody. intros [[n Hn] _]. vm_compute in Hn. discriminate.
  - destruct (runTileAnalysis_request_fields sid modelType tile_form)
      as (Hn & Hh & _). cbn zeta in *.
    split; eexists; eassumption.
Qed.

Lemma unknown_model_request_witness :
  runAnalysis_request "UNRATE" "Prophet"
    {| nTest := Int 12; hFuture := Int 6; paramP := Int 1; paramD := Int 1;
       paramQ := Int 1; maWindows := [Int 3]; mcSims := Int 1000 |}
  = <["series_id" := JStr "UNRATE"]> (<["model_type" := JStr "Prophet"]> ∅).
Proof.
  apply (unknown_model_request "UNRATE" "Prophet" _ sample_tile_form); done.
Defined.

(** ** Loading a precomputed model *)

Lemma tile_window_empty {V} (h : Historical V) (periodValue : Z) :
  dates h = [] → dates (tile_window h periodValue) = [].
Proof.
  intros He. unfold tile_window. destruct (0 <? periodValue); [|done].
  cbv zeta. cbn [dates]. rewrite He. unfold js_slice.
  by rewrite drop_nil.
Qed.

(** X11.  Loading the same response into the same tile a second time
    changes nothing: the state after two loads is the state after one. *)
Theorem loadPrecomputedModel_reload {V} (i : nat) (outcome : FetchOutcome V)
    (st : AppState V) :
  loadPrecomputedModel i outcome (loadPrecomputedModel i outcome st)
  = loadPrecomputedModel i outcome st.
Proof.
  destruct (tiles st !! i) as [content|] eqn:Hi.
  2:{ unfold loadPrecomputedModel. by rewrite !Hi. }
  destruct (chartContainer content) as [k|] eqn:Hk.
  2:{ unfold loadPrecomputedModel. by rewrite !Hi, !Hk, !Hi, !Hk. }
  unfold loadPrecomputedModel. rewrite Hi, Hk.
  destruct outcome as [e|body].
  { cbn. rewrite lookup_insert_eq. cbn. by rewrite insert_insert_eq. }
  destruct (truthy (pre_error body)) as [msg|].
  { cbn. rewrite lookup_insert_eq. cbn. by rewrite insert_insert_eq. }
  destruct (pre_result body) as [result|].
  2:{ cbn. rewrite lookup_insert_eq. cbn. by rewrite insert_insert_eq. }
  unfold renderTileForecastChart.
  cbn [forecast_canvas set_container chartContainer].
  destruct (tile_chart (tile_window (historical result) 12) (forecast result))
    as [ch|e] eqn:Htc.
  - destruct (comparison result) as [cmp|] eqn:Hcmp;
      cbn -[tile_chart tile_window]; rewrite lookup_insert_eq;
      cbn -[tile_chart tile_window]; rewrite ?Htc, ?Hcmp;
      cbn -[tile_chart tile_window]; by rewrite insert_insert_eq.
  - cbn -[tile_chart tile_window]. rewrite lookup_insert_eq.
    cbn -[tile_chart tile_window]. rewrite ?Htc.
    cbn -[tile_chart tile_window]. by rewrite insert_insert_eq.
Qed.

(** X12.  A precomputed payload without a single observation cannot be
    drawn: its tile is left with a blank canvas and the period handlers it
    had.  The payload is nevertheless stored in [state.analysisResults] and
    [state.fullChartData], and from then on every period button of the
    panel ends in a RangeError and leaves the state as it is. *)
Theorem precomputed_without_history {V} (st : AppState V) (i : nat)
    (content : Content V) (body : Precomputed V) (r : Result V) (p : Z) :
  tiles st !! i = Some content → is_Some (chartContainer content) →
  truthy (pre_error body) = None → pre_result body = Some r →
  dates (historical r) = [] →
  let st' := loadPrecomputedModel i (FetchJson body) st in
  analysisResults st' = Some r
  ∧ fullChartData st' = Some (historical r, forecast r)
  ∧ charts_forecast st' = charts_forecast st
  ∧ tiles st' !! i = Some (set_container content (ForecastCanvas new_canvas))
  ∧ handlePeriodChange {| btn_period := p; btn_tile := None |} st'
    = (st', Throw RangeError).
Proof.
  intros Hi [k Hk] Herr Hres He st'.
  assert (Hst : st' = {| analysisResults := Some r;
                         fullChartData := Some (historical r, forecast r);
                         charts_forecast := charts_forecast st;
                         tiles := <[i := set_container content (ForecastCanvas new_canvas)]>
                                    (tiles st) |}).
  { subst st'. unfold loadPrecomputedModel. rewrite Hi, Hk, Herr, Hres.
    unfold renderTileForecastChart.
    cbn [forecast_canvas set_container chartContainer].
    rewrite tile_chart_empty by (by apply tile_window_empty). reflexivity. }
  rewrite Hst. cbn [analysisResults fullChartData charts_forecast tiles].
  rewrite lookup_insert_eq. repeat split.
  unfold handlePeriodChange. cbn [analysisResults fullChartData btn_period].
  rewrite compose_timeline_empty; [done|].
  rewrite panel_window_tile_window. by apply tile_window_empty.
Qed.

Lemma precomputed_without_history_witness :
  handlePeriodChange {| btn_period := 12; btn_tile := None |}
    (loadPrecomputedModel 0
       (FetchJson {| pre_error := None; pre_result := Some empty_result;
                     best_model := None |})
       {| analysisResults := None; fullChartData := None; charts_forecast := None;
          tiles := {[ 0%nat := fresh_tile ]} |})
  = (loadPrecomputedModel 0
       (FetchJson {| pre_error := None; pre_result := Some empty_result;
                     best_model := None |})
       {| analysisResults := None; fullChartData := None; charts_forecast := None;
          tiles := {[ 0%nat := fresh_tile ]} |},
     Throw RangeError).
Proof.
  eapply (precomputed_without_history _ 0%nat fresh_tile _ empty_result 12).
  - reflexivity.
  - by eexists.
  - reflexivity.
  - reflexivity.
  - reflexivity.
Defined.

Lemma tile_period_click_without_canvas {V} (content : Content V) (q : Z) :
  forecast_canvas content = None → tile_period_click content q = (content, Ok ()).
Proof.
  intros Hcv. unfold tile_period_click, renderTileForecastChart. rewrite Hcv.
  by destruct (period_onclick content) as [[|d]|].
Qed.

Lemma run_clicks_without_canvas {V} (content : Content V) (ps : list Z) :
  forecast_canvas content = None →
  run_events (λ q c, tile_period_click c q) ps content = content.
Proof.
  intros Hcv. induction ps as [|q ps IH]; [done|].
  unfold run_events in *. cbn [foldl].
  by rewrite tile_period_click_without_canvas.
Qed.

(** X13.  Once a tile has shown "Model not ready" its canvas is gone, and
    an analysis run in that tile cannot be displayed: [runTileAnalysis]
    binds the period buttons to the new result but draws nothing, and no
    period click draws anything either; the tile keeps the message. *)
Theorem model_not_ready_blocks_tile {V} (st : AppState V) (i : nat)
    (content : Content V) (body : Precomputed V) (msg : string) (r : Result V)
    (ps : list Z) :
  tiles st !! i = Some content → is_Some (chartContainer content) →
  truthy (pre_error body) = Some msg →
  ∃ shown,
    tiles (loadPrecomputedModel i (FetchJson body) st) !! i = Some shown
    ∧ chartContainer shown = Some (Placeholder ("Model not ready: " +:+ msg))
    ∧ period_onclick (runTileAnalysis_render shown r) = Some (FromAnalysis r)
    ∧ chartContainer
        (run_events (λ q c, tile_period_click c q) ps (runTileAnalysis_render shown r))
      = Some (Placeholder ("Model not ready: " +:+ msg)).
Proof.
  intros Hi [k Hk] Herr.
  unfold loadPrecomputedModel. rewrite Hi, Hk, Herr. cbn [tiles].
  rewrite lookup_insert_eq. eexists. split; [done|]. split; [done|].
  unfold runTileAnalysis_render, renderTileForecastChart.
  cbn [forecast_canvas set_container chartContainer].
  split; [by destruct (comparison r)|].
  rewrite run_clicks_without_canvas; by destruct (comparison r).
Qed.

Lemma model_not_ready_blocks_tile_witness :
  ∃ shown,
    tiles (loadPrecomputedModel 0
             (FetchJson {| pre_error := Some "computing"%string; pre_result := None;
                           best_model := None |})
             {| analysisResults := None; fullChartData := None; charts_forecast := None;
                tiles := {[ 0%nat := fresh_tile ]} |}) !! 0%nat = Some shown
    ∧ forecast_canvas
        (run_events (λ q c, tile_period_click c q) [12; 0]
           (runTileAnalysis_render shown sample_result)) = None.
Proof.
  destruct (model_not_ready_blocks_tile
              {| analysisResults := None; fullChartData := None; charts_forecast := None;
                 tiles := {[ 0%nat := fresh_tile ]} |} 0%nat fresh_tile
              {| pre_error := Some "computing"%string; pre_result := None;
                 best_model := None |}
              "computing" sample_result [12; 0])
    as (shown & Hshown & _ & _ & Hc); [reflexivity|by eexists|reflexivity|].
  exists shown. split; [exact Hshown|].
  unfold forecast_canvas. by rewrite Hc.
Defined.

(** ** Running an analysis in the panel *)


Lemma renderForecastChart_outcome {V} (data : Result V) (st : AppState V) :
  (dates (historical data) ≠ [] → snd (renderForecastChart data st) = Ok ())
  ∧ (dates (historical data) = [] →
     snd (renderForecastChart data st) = Throw RangeError).
Proof.
  unfold renderForecastChart. split; intros Hd.
  - destruct (panel_chart_nonempty _ (forecast data) Hd) as (t & _ & ->). done.
  - by rewrite panel_chart_empty.
Qed.



(** X15.  A response without a comparison is rendered half way in the
    panel: the new analysis is stored and its forecast chart is drawn, then
    [renderDiffChart] throws, so the previous diff chart is destroyed and
    not replaced, the statistics shown stay those of the previous analysis
    and an alert is raised.  The tile guards the same step: it draws the
    forecast chart, binds the period buttons and leaves its diff chart as
    it was. *)
Theorem analysis_without_comparison {V} (modelType : string) (data : Result V)
    (p : Panel V) (content : Content V) :
  is_Some (currentIndicator p) → dates (historical data) ≠ [] →
  comparison data = None → is_Some (forecast_canvas content) →
  let p' := runAnalysis modelType (AnalyzeOk data) p in
  app p' = runAnalysis_render data (app p)
  ∧ panel_shows data (app p')
  ∧ charts_diff p' = destroy (charts_diff p)
  ∧ summary p' = summary p
  ∧ alerts p' = alerts p ++ [AnalysisError (Thrown TypeError)]
  ∧ tile_ready data (runTileAnalysis_render content data)
  ∧ diff_chart (runTileAnalysis_render content data) = diff_chart content.
Proof.
  intros [sid Hsid] Hd Hc [cv Hcv] p'.
  destruct (runAnalysis_render_shows data (app p) Hd) as [Hshows _].
  assert (Hp : p' = {| app := runAnalysis_render data (app p);
                       currentIndicator := currentIndicator p;
                       charts_diff := destroy (charts_diff p);
                       overlay := false;
                       alerts := alerts p ++ [AnalysisError (Thrown TypeError)];
                       summary := summary p;
                       correlation_loads := correlation_loads p |}).
  { subst p'. unfold runAnalysis, runAnalysis_render. rewrite Hsid.
    set (stored := {| analysisResults := Some data;
                      fullChartData := fullChartData (app p);
                      charts_forecast := charts_forecast (app p);
                      tiles := tiles (app p) |}).
    destruct (renderForecastChart_outcome data stored) as [Hok _].
    specialize (Hok Hd).
    destruct (renderForecastChart data stored) as [a r]. cbn [snd fst] in *.
    subst r. unfold renderDiffChart. by rewrite Hc. }
  rewrite Hp. cbn [app charts_diff summary alerts]. repeat (split; [done|]).
  unfold runTileAnalysis_render, renderTileForecastChart. rewrite Hcv.
  destruct (tile_chart_nonempty _ (forecast data)
              (tile_window_nonempty (historical data) 12 Hd)) as (t & _ & ->).
  rewrite Hc. split; [|done]. split; [by eexists|by right].
Qed.

Lemma analysis_without_comparison_witness :
  alerts (runAnalysis "ARIMA"
            (AnalyzeOk {| historical := sample_historical; forecast := sample_forecast;
                          comparison := None; opinion := None |})
            sample_panel)
  = [AnalysisError (Thrown TypeError)].
Proof.
  eapply (analysis_without_comparison "ARIMA"
            {| historical := sample_historical; forecast := sample_forecast;
               comparison := None; opinion := None |}
            sample_panel fresh_tile).
  - by eexists.
  - vm_compute. discriminate.
  - reflexivity.
  - by eexists.
Defined.

(** ** The card client's cache *)

Lemma cacheKey_default (sid : string) :
  cacheKey sid loadIndicatorAnalysis_params = default_key sid.
Proof. unfold cacheKey, default_key. vm_compute. reflexivity. Qed.

(** X16.  The key under which [fetchAnalysis] stores the default analysis
    is the key [toggleIndicatorCard] looks up.  So expanding a card whose
    analysis is not cached starts one request; once it is answered,
    collapsing and expanding again starts none; and after a failed request
    nothing is cached and the next expansion asks again. *)
Theorem default_analysis_cached {V} (sid : string) (s : CardClient V) (data : Result V) :
  card_collapsed s = true → analysisCache s !! default_key sid = None →
  let opened := toggleIndicatorCard sid s in
  let answered := default_analysis_arrives sid (Some data) opened in
  let reopened := toggleIndicatorCard sid (toggleIndicatorCard sid answered) in
  let failed := default_analysis_arrives sid None opened in
  in_flight opened = S (in_flight s)
  ∧ analysisCache answered !! default_key sid = Some data
  ∧ in_flight answered = in_flight s
  ∧ in_flight reopened = in_flight s
  ∧ card_collapsed reopened = false
  ∧ sid ∈ expandedIndicators reopened
  ∧ analysisCache failed = analysisCache s
  ∧ in_flight (toggleIndicatorCard sid (toggleIndicatorCard sid failed))
    = S (in_flight s).
Proof.
  intros Hc Hmiss. destruct s as [c cache ex n].
  cbn [card_collapsed analysisCache] in Hc, Hmiss. subst c.
  cbn zeta. unfold toggleIndicatorCard, default_analysis_arrives, fetchAnalysis_store.
  cbn [card_collapsed analysisCache expandedIndicators in_flight].
  rewrite Hmiss, cacheKey_default.
  cbn [card_collapsed analysisCache expandedIndicators in_flight].
  rewrite lookup_insert_eq, Hmiss.
  cbn [card_collapsed analysisCache expandedIndicators in_flight].
  rewrite ?Hmiss.
  cbn [card_collapsed analysisCache expandedIndicators in_flight].
  repeat split; try done. set_solver.
Qed.

Lemma default_analysis_cached_witness :
  card_collapsed sample_card = true
  ∧ analysisCache sample_card !! default_key "UNRATE" = None
  ∧ in_flight
      (toggleIndicatorCard "UNRATE"
         (toggleIndicatorCard "UNRATE"
            (default_analysis_arrives "UNRATE" (Some sample_result)
               (toggleIndicatorCard "UNRATE" sample_card))))
    = in_flight sample_card.
Proof.
  assert (H1 : card_collapsed sample_card = true) by reflexivity.
  assert (H2 : analysisCache sample_card !! default_key "UNRATE" = None)
    by (vm_compute; reflexivity).
  split; [exact H1|]. split; [exact H2|].
  destruct (default_analysis_cached "UNRATE" sample_card sample_result H1 H2)
    as (_ & _ & _ & Hre & _).
  exact Hre.
Defined.

(** X17.  The card client has no single-flight guard: expanding,
    collapsing and expanding a card again before the first response arrives
    leaves two requests for the same analysis in flight.  And a response
    that arrives after the card was collapsed again still records the
    indicator as expanded. *)
Theorem card_requests_not_deduplicated {V} (sid : string) (s : CardClient V)
    (response : option (Result V)) :
  card_collapsed s = true → analysisCache s !! default_key sid = None →
  let opened := toggleIndicatorCard sid s in
  let closed := toggleIndicatorCard sid opened in
  in_flight (toggleIndicatorCard sid closed) = S (S (in_flight s))
  ∧ card_collapsed (default_analysis_arrives sid response closed) = true
  ∧ sid ∈ expandedIndicators (default_analysis_arrives sid response closed).
Proof.
  intros Hc Hmiss. destruct s as [c cache ex n].
  cbn [card_collapsed analysisCache] in Hc, Hmiss. subst c.
  cbn zeta. unfold toggleIndicatorCard, default_analysis_arrives.
  cbn [card_collapsed analysisCache expandedIndicators in_flight].
  rewrite Hmiss.
  cbn [card_collapsed analysisCache expandedIndicators in_flight].
  rewrite ?Hmiss.
  cbn [card_collapsed analysisCache expandedIndicators in_flight].
  repeat split; try done. set_solver.
Qed.

Lemma card_requests_not_deduplicated_witness :
  card_collapsed sample_card = true
  ∧ analysisCache sample_card !! default_key "UNRATE" = None
  ∧ in_flight
      (toggleIndicatorCard "UNRATE"
         (toggleIndicatorCard "UNRATE" (toggleIndicatorCard "UNRATE" sample_card)))
    = S (S (in_flight sample_card)).
Proof.
  assert (H1 : card_collapsed sample_card = true) by reflexivity.
  assert (H2 : analysisCache sample_card !! default_key "UNRATE" = None)
    by (vm_compute; reflexivity).
  split; [exact H1|]. split; [exact H2|].
  apply (card_requests_not_deduplicated "UNRATE" sample_card None H1 H2).
Defined.

(** X18.  The cache key is built from the series, the model type and the
    ARIMA order only.  Requests that differ in test length, horizon, window
    or simulation count share one entry: every Moving Average analysis of a
    series is stored under one key, every Monte Carlo analysis under
    another, and an ARIMA(1,1,1) update with any test length and horizon
    under the key of the default analysis.  An order component of [0] is
    keyed like a missing one. *)
Theorem cacheKey_collisions (sid : string) :
  (∀ params params',
     Forall (λ k, params !! k = params' !! k) ["model_type"; "p"; "d"; "q"]%string →
     cacheKey sid params = cacheKey sid params')
  ∧ (∀ w nTest hFuture,
       cacheKey sid (updateAnalysis_params "MA" (ma_inputs w nTest hFuture))
       = sid +:+ "_MA___")
  ∧ (∀ sims nTest hFuture,
       cacheKey sid (updateAnalysis_params "MONTE" (monte_inputs sims nTest hFuture))
       = sid +:+ "_MONTE___")
  ∧ (∀ nTest hFuture,
       cacheKey sid
         (updateAnalysis_params "ARIMA"
            (arima_inputs (Int 1) (Int 1) (Int 1) nTest hFuture))
       = default_key sid)
  ∧ (∀ d q nTest hFuture,
       cacheKey sid (updateAnalysis_params "ARIMA" (arima_inputs (Int 0) d q nTest hFuture))
       = cacheKey sid (updateAnalysis_params "ARIMA" (arima_inputs NaN d q nTest hFuture))).
Proof.
  split; [|split; [|split; [|split]]].
  - intros params params' Hall. unfold cacheKey.
    apply Forall_cons in Hall as [-> Hall].
    apply Forall_cons in Hall as [-> Hall].
    apply Forall_cons in Hall as [-> Hall].
    apply Forall_cons in Hall as [-> _]. done.
  - intros. unfold cacheKey. vm_compute. reflexivity.
  - intros. unfold cacheKey. vm_compute. reflexivity.
  - intros. unfold cacheKey, default_key. vm_compute. reflexivity.
  - intros. unfold cacheKey. vm_compute. reflexivity.
Qed.

Lemma cacheKey_collisions_witness :
  cacheKey "UNRATE" (updateAnalysis_params "MA" (ma_inputs (Int 3) (Int 12) (Int 6)))
  = cacheKey "UNRATE" (updateAnalysis_params "MA" (ma_inputs (Int 9) (Int 24) (Int 1))).
Proof.
  destruct (cacheKey_collisions "UNRATE") as (_ & Hma & _).
  rewrite !Hma. reflexivity.
Defined.

(** ** The first display *)


